(** * Airspace Copilot: data access, anomaly engine and two-stage pipeline

    A shallow embedding of the Python sources
      - [src/mcp-server/server.py]    (snapshot store, cross-region locator),
      - [src/agents/ops_agent.py]     (metrics, anomalies, summary),
      - [src/agents/traveler_agent.py] (flight context),
      - [src/agents/crew_runner.py]   (compaction, the two pipeline nodes),
    together with the properties the specification states about them.

    Conventions of the embedding.
      - A Python [str] is a [string]; the model covers the 7-bit ASCII
        alphabet (callsigns, ICAO24 addresses and region ids are ASCII).
      - A JSON number read into a Python [float] is the rational it denotes
        ([Qc]); [int]s are [Z].  NaN only arises as a computed average and
        is a constructor of [pyfloat].
      - A dictionary read from JSON with a known set of keys is a record
        whose fields are [field]s: a key may be absent, hold [null], or hold
        a value.  [dict.get] does not tell the first two apart.
      - Code that can raise returns a [result]. *)

From Stdlib Require Import Ascii String QArith Qcanon.
From stdpp Require Import base option list numbers strings pretty gmap sorting.

#[local] Open Scope string_scope.
#[local] Open Scope list_scope.
#[local] Open Scope Z_scope.

(** ** Python values *)

Module Py.

(** Exceptions that cross a function boundary in the modelled code. *)
Inductive exn :=
  | HTTPException (status_code : Z)    (* fastapi, raised by the server *)
  | HTTPStatusError (status_code : Z)  (* httpx, [resp.raise_for_status()] *)
  | TransportError                     (* httpx, the request itself failed *)
  | KeyError (key : string)            (* [d[k]] on a missing key *)
  | TypeError                          (* iterating over [None] *)
  | ValidationError                    (* pydantic, a response model rejects its data *)
  | UpstreamFailure (msg : string).    (* the reasoning service *)

Inductive result (A : Type) :=
  | Ok (a : A)
  | Raise (e : exn).
Arguments Ok {A} a.
Arguments Raise {A} e.

#[global] Instance result_ret : MRet result := @Ok.
#[global] Instance result_bind : MBind result := λ A B k r,
  match r with
  | Ok a => k a
  | Raise e => Raise e
  end.

(** A key of a JSON object: missing, [null], or a value. *)
Inductive field (A : Type) :=
  | Absent
  | Null
  | Val (a : A).
Arguments Absent {A}.
Arguments Null {A}.
Arguments Val {A} a.

(** [d.get(k)]: [None] when the key is missing and when it holds [null]. *)
Definition get {A} (f : field A) : option A :=
  match f with
  | Val a => Some a
  | Absent | Null => None
  end.

(** [k in d]. *)
Definition has_key {A} (f : field A) : bool :=
  match f with
  | Absent => false
  | Null | Val _ => true
  end.

(** Truth values of the Python objects the code tests. *)
Definition truthy_str (s : string) : bool :=
  match s with
  | EmptyString => false
  | String _ _ => true
  end.
Definition truthy_int (n : Z) : bool := negb (n =? 0).
Definition truthy_float (x : Qc) : bool := negb (bool_decide (x = 0%Qc)).

(** [a or b] on optional strings, where [b] is a string. *)
Definition or_str (a : option string) (b : string) : string :=
  match a with
  | Some s => if truthy_str s then s else b
  | None => b
  end.

(** [str.isspace] on ASCII: TAB, LF, VT, FF, CR, FS, GS, RS, US, SPACE. *)
Definition is_space (c : ascii) : bool :=
  let n := N_of_ascii c in
  ((9 <=? n) && (n <=? 13) || (28 <=? n) && (n <=? 32))%N.

Definition upper_char (c : ascii) : ascii :=
  let n := N_of_ascii c in
  if ((97 <=? n) && (n <=? 122))%N then ascii_of_N (n - 32) else c.

(** [str.upper]. *)
Fixpoint upper (s : string) : string :=
  match s with
  | EmptyString => EmptyString
  | String c s' => String (upper_char c) (upper s')
  end.

Fixpoint lstrip (s : string) : string :=
  match s with
  | EmptyString => EmptyString
  | String c s' => if is_space c then lstrip s' else s
  end.

Fixpoint rstrip (s : string) : string :=
  match s with
  | EmptyString => EmptyString
  | String c s' =>
      match rstrip s' with
      | EmptyString => if is_space c then EmptyString else String c EmptyString
      | r => String c r
      end
  end.

(** [str.strip()] with no argument. *)
Definition strip (s : string) : string := rstrip (lstrip s).

(** A string made of whitespace only (the empty string included). *)
Fixpoint blank (s : string) : bool :=
  match s with
  | EmptyString => true
  | String c s' => is_space c && blank s'
  end.

(** [sep.join(parts)]. *)
Fixpoint join (sep : string) (parts : list string) : string :=
  match parts with
  | [] => ""
  | [p] => p
  | p :: rest => p +:+ sep +:+ join sep rest
  end.

End Py.
Export Py.


(** ** [src/mcp-server/server.py] *)

(** [class FlightState(BaseModel)]: the keys of one state object. *)
Module FlightState.
Record t := {
  icao24 : field string;
  callsign : field string;
  origin_country : field string;
  time_position : field Z;
  last_contact : field Z;
  longitude : field Qc;
  latitude : field Qc;
  baro_altitude : field Qc;
  on_ground : field bool;
  velocity : field Qc;
  true_track : field Qc;
  vertical_rate : field Qc;
  geo_altitude : field Qc;
  squawk : field string;
  spi : field bool;
  position_source : field Z;
}.

(** The dictionary [{}]. *)
Definition empty : t :=
  {| icao24 := Absent; callsign := Absent; origin_country := Absent;
     time_position := Absent; last_contact := Absent; longitude := Absent;
     latitude := Absent; baro_altitude := Absent; on_ground := Absent;
     velocity := Absent; true_track := Absent; vertical_rate := Absent;
     geo_altitude := Absent; squawk := Absent; spi := Absent;
     position_source := Absent |}.

(** [bool(state)]: a dictionary is true when it has a key. *)
Definition truthy (s : t) : bool :=
  has_key (icao24 s) || has_key (callsign s) || has_key (origin_country s)
  || has_key (time_position s) || has_key (last_contact s)
  || has_key (longitude s) || has_key (latitude s)
  || has_key (baro_altitude s) || has_key (on_ground s)
  || has_key (velocity s) || has_key (true_track s)
  || has_key (vertical_rate s) || has_key (geo_altitude s)
  || has_key (squawk s) || has_key (spi s) || has_key (position_source s).
End FlightState.

(** [class SnapshotResponse(BaseModel)]: the object a snapshot file holds. *)
Module Snapshot.
Record t := {
  region : field string;
  last_updated : field string;
  bounds : field (list (string * Qc));
  states : field (list FlightState.t);
}.

(** [snapshot.get("states", [])], as the loops consume it: a missing key
    gives no state, and a [null] cannot be iterated. *)
Definition get_states (snapshot : t) : result (list FlightState.t) :=
  match states snapshot with
  | Absent => Ok []
  | Val l => Ok l
  | Null => Raise TypeError
  end.
End Snapshot.

(** [class Alert(BaseModel)]. *)
Module Alert.
Record t := {
  id : string;
  region : string;
  callsign : option string;
  type : string;
  severity : string;
  message : string;
  detected_at : string;
}.
End Alert.

(** [class AlertsResponse(BaseModel)]: the object the alerts file holds. *)
Module Alerts.
Record t := {
  last_updated : field string;
  alerts : field (list Alert.t);
}.
End Alerts.

Module Server.

(** What is on disk under a path that exists: text that [json.loads]
    rejects, or the value it returns. *)
Inductive file (A : Type) :=
  | Corrupt
  | Parsed (a : A).
Arguments Corrupt {A}.
Arguments Parsed {A} a.

(** [DATA_SNAPSHOT_DIR] and [ALERTS_FILE]: [None] when the path does not
    exist; the directory maps the stem of each [*.json] file to the file. *)
Record disk := {
  snapshot_dir : option (gmap string (file Snapshot.t));
  alerts_file : option (file Alerts.t);
}.

Definition _load_snapshot (d : disk) (region : string) : result Snapshot.t :=
  match snapshot_dir d ≫= (.!! region) with
  | None => Raise (HTTPException 404)
  | Some Corrupt => Raise (HTTPException 500)
  | Some (Parsed data) => Ok data
  end.

Definition _load_alerts (d : disk) : result Alerts.t :=
  match alerts_file d with
  | None => Ok {| Alerts.last_updated := Val ""; Alerts.alerts := Val [] |}
  | Some Corrupt => Raise (HTTPException 500)
  | Some (Parsed data) => Ok data
  end.

(** [sorted(p.stem for p in DATA_SNAPSHOT_DIR.glob("*.json"))]: strings
    compare lexicographically by character code. *)
Definition _list_regions (d : disk) : list string :=
  match snapshot_dir d with
  | None => []
  | Some files => merge_sort String.le (elements (dom files))
  end.

(** The value [_find_by_callsign] returns on a match. *)
Record located := {
  region : string;
  snapshot : Snapshot.t;
  state : FlightState.t;
}.

(** [(state.get("callsign") or "").strip().upper() == normalized] *)
Definition callsign_matches (normalized : string) (state : FlightState.t) : bool :=
  bool_decide (upper (strip (or_str (get (FlightState.callsign state)) "")) = normalized).

(** The inner loop: the first state of the snapshot that matches. *)
Fixpoint first_match (normalized : string) (states : list FlightState.t)
    : option FlightState.t :=
  match states with
  | [] => None
  | state :: rest =>
      if callsign_matches normalized state then Some state
      else first_match normalized rest
  end.

(** The outer loop over the region ids. *)
Fixpoint scan_regions (d : disk) (normalized : string) (regions : list string)
    : result (option located) :=
  match regions with
  | [] => Ok None
  | region :: rest =>
      snapshot ← _load_snapshot d region;
      states ← Snapshot.get_states snapshot;
      match first_match normalized states with
      | Some state =>
          Ok (Some {| region := region; snapshot := snapshot; state := state |})
      | None => scan_regions d normalized rest
      end
  end.

Definition _find_by_callsign (d : disk) (callsign : string) : result (option located) :=
  let normalized := upper (strip callsign) in
  scan_regions d normalized (_list_regions d).

(** [GET /flights/callsign/{callsign}] *)
Definition get_flight_by_callsign (d : disk) (callsign : string) : result located :=
  r ← _find_by_callsign d callsign;
  match r with
  | None => Raise (HTTPException 404)
  | Some found => Ok found
  end.

(** The response model [AlertsResponse] built from the loaded object: both
    keys are required. *)
Definition AlertsResponse (data : Alerts.t) : result Alerts.t :=
  match Alerts.last_updated data, Alerts.alerts data with
  | Val _, Val _ => Ok data
  | _, _ => Raise ValidationError
  end.

(** [GET /alerts] *)
Definition list_alerts (d : disk) : result Alerts.t :=
  data ← _load_alerts d;
  AlertsResponse data.

(** What the HTTP client sees of a route: the value on success, and the
    status code of the error response otherwise (an exception that is not
    an [HTTPException] becomes a 500). *)
Definition respond {A} (r : result A) : result A :=
  match r with
  | Ok a => Ok a
  | Raise (HTTPException code) => Raise (HTTPStatusError code)
  | Raise _ => Raise (HTTPStatusError 500)
  end.

End Server.

(** ** [src/agents/mcp_client.py] *)

(** [class MCPClient]: the three tools the agents call.  Each is an HTTP
    request followed by [raise_for_status()], so each can raise. *)
Record MCPClient := {
  list_region_snapshot : string → result Snapshot.t;
  find_by_callsign : string → result Server.located;
  list_alerts : result Alerts.t;
}.

(** ** [src/agents/ops_agent.py] *)

(** A computed Python [float]: a number, or NaN. *)
Inductive pyfloat :=
  | NaN
  | Fin (q : Qc).

(** The [value: Any] of an anomaly: a [float], an [int] or a [str]. *)
Inductive any :=
  | AFloat (x : Qc)
  | AInt (n : Z)
  | AStr (s : string).

(** [@dataclass class Anomaly] *)
Module Anomaly.
Record t := {
  callsign : string;
  issue : string;
  value : any;
}.
End Anomaly.

(** The [metrics] dictionary. *)
Module Metrics.
Record t := {
  aircraft : nat;
  avg_altitude : option pyfloat;
  avg_velocity : option pyfloat;
}.
End Metrics.

(** The dictionary [analyze_region] returns. *)
Module Analysis.
Record t := {
  region : string;
  last_updated : option string;
  bounds : option (list (string * Qc));
  metrics : Metrics.t;
  anomalies : list Anomaly.t;
  summary : string;
}.
End Analysis.

(** The part of pandas that [_compute_metrics] uses, on a frame built from
    a list of state dictionaries.  The frame has one row per dictionary
    and one column per key that occurs in some dictionary; a cell is
    missing (NaN or [None]) where the row's dictionary lacks the key or
    holds [null]. *)
Module pd.

Definition DataFrame := list FlightState.t.

(** [frame.shape[0]] *)
Definition nrows (frame : DataFrame) : nat := length frame.

(** [frame.empty]: some axis has length zero, that is, no row or no
    column. *)
Definition empty (frame : DataFrame) : bool :=
  bool_decide (nrows frame = 0%nat) || forallb (negb ∘ FlightState.truthy) frame.

(** [key in frame], for the column read by the projection [col]. *)
Definition contains {A} (col : FlightState.t → field A) (frame : DataFrame) : bool :=
  existsb (has_key ∘ col) frame.

(** [frame[key].dropna()]: the cells that hold a value, in row order. *)
Definition dropna {A} (col : FlightState.t → field A) (frame : DataFrame) : list A :=
  omap (get ∘ col) frame.

Definition sum (xs : list Qc) : Qc := foldr Qcplus 0%Qc xs.

(** [Series.mean()]: NaN for a series with no value, else the sum over the
    count.  The arithmetic is exact (no rounding of the sum or of the
    quotient). *)
Definition mean (xs : list Qc) : pyfloat :=
  match xs with
  | [] => NaN
  | _ => Fin (sum xs / Qc_of_Z (Z.of_nat (length xs)))%Qc
  end.

End pd.

(** Rounding to the nearest integer, ties to the even one. *)
Definition round_half_even (q : Qc) : Z :=
  let n := Qnum q in
  let d := Z.pos (Qden q) in
  let f := (2 * n + d) `div` (2 * d) in
  if ((2 * n + d) `mod` (2 * d) =? 0) && Z.odd f then f - 1 else f.

(** [round(x, 2)]: NaN stays NaN. *)
Definition round2 (x : pyfloat) : pyfloat :=
  match x with
  | NaN => NaN
  | Fin q => Fin (Q2Qc (round_half_even (q * Qc_of_Z 100)%Qc # 100))
  end.

(** [bool(x)] for a float: zero is false, NaN is true. *)
Definition truthy_pyfloat (x : pyfloat) : bool :=
  match x with
  | NaN => true
  | Fin q => truthy_float q
  end.

(** [str(n)] for a non-negative [int]. *)
Definition str_nat (n : nat) : string := pretty n.

(** [str(x)] for a float that [round(x, 2)] returned, of magnitude below
    10^16: the digits before the point, the point, and one or two digits
    after it. *)
Definition str_float (x : pyfloat) : string :=
  match x with
  | NaN => "nan"
  | Fin q =>
      let c := round_half_even (q * Qc_of_Z 100)%Qc in
      let a := Z.abs c in
      (if c <? 0 then "-" else "")
      +:+ pretty (a `div` 100) +:+ "." +:+ pretty ((a `mod` 100) `div` 10)
      +:+ (if a `mod` 10 =? 0 then "" else pretty (a `mod` 10))
  end.

(** [str(x)] for an optional string: [None] prints as its name. *)
Definition str_opt (x : option string) : string := default "None" x.

Module OpsAnalystAgent.

Definition _compute_metrics (frame : pd.DataFrame) : Metrics.t :=
  if pd.empty frame then
    {| Metrics.aircraft := 0; Metrics.avg_altitude := None; Metrics.avg_velocity := None |}
  else
    {| Metrics.aircraft := pd.nrows frame;
       Metrics.avg_altitude :=
         if pd.contains FlightState.geo_altitude frame
         then Some (round2 (pd.mean (pd.dropna FlightState.geo_altitude frame)))
         else None;
       Metrics.avg_velocity :=
         if pd.contains FlightState.velocity frame
         then Some (round2 (pd.mean (pd.dropna FlightState.velocity frame)))
         else None |}.

(** The four tests of the loop body of [_detect_anomalies], in the order
    of the source.  Each takes the list built so far and returns it with
    what the test appended. *)
Definition check_velocity (callsign : string) (state : FlightState.t)
    (anomalies : list Anomaly.t) : list Anomaly.t :=
  match get (FlightState.velocity state) with
  | Some velocity =>
      if truthy_float velocity && bool_decide (Qc_of_Z 280 < velocity)%Qc
      then anomalies ++ [Anomaly.Build_t callsign "High velocity" (AFloat velocity)]
      else anomalies
  | None => anomalies
  end.

Definition check_altitude (callsign : string) (state : FlightState.t)
    (anomalies : list Anomaly.t) : list Anomaly.t :=
  match get (FlightState.baro_altitude state) with
  | Some baro_altitude =>
      if bool_decide (baro_altitude < Qc_of_Z 300)%Qc
      then anomalies ++ [Anomaly.Build_t callsign "Low altitude" (AFloat baro_altitude)]
      else anomalies
  | None => anomalies
  end.

Definition check_latency (callsign : string) (state : FlightState.t)
    (anomalies : list Anomaly.t) : list Anomaly.t :=
  match get (FlightState.last_contact state), get (FlightState.time_position state) with
  | Some last_contact, Some time_position =>
      if truthy_int last_contact && truthy_int time_position then
        let latency := last_contact - time_position in
        if 45 <? latency
        then anomalies ++ [Anomaly.Build_t callsign "Stale telemetry" (AInt latency)]
        else anomalies
      else anomalies
  | _, _ => anomalies
  end.

(** [not x] for an optional float: true for [None] and for 0.0. *)
Definition not_float (x : option Qc) : bool :=
  negb (from_option truthy_float false x).

Definition check_coordinates (callsign : string) (state : FlightState.t)
    (anomalies : list Anomaly.t) : list Anomaly.t :=
  if not_float (get (FlightState.latitude state))
     || not_float (get (FlightState.longitude state))
  then anomalies ++ [Anomaly.Build_t callsign "Missing coordinates" (AStr "n/a")]
  else anomalies.

(** One iteration of the loop. *)
Definition detect_state (anomalies : list Anomaly.t) (state : FlightState.t)
    : list Anomaly.t :=
  let callsign :=
    strip (or_str (get (FlightState.callsign state))
             (or_str (get (FlightState.icao24 state)) "UNKNOWN")) in
  let anomalies := check_velocity callsign state anomalies in
  let anomalies := check_altitude callsign state anomalies in
  let anomalies := check_latency callsign state anomalies in
  check_coordinates callsign state anomalies.

Definition _detect_anomalies (states : list FlightState.t) : list Anomaly.t :=
  foldl detect_state [] states.

Definition _build_summary (region : string) (snapshot : Snapshot.t)
    (metrics : Metrics.t) (anomalies : list Anomaly.t) : string :=
  let lines :=
    ["Region " +:+ region +:+ " has " +:+ str_nat (Metrics.aircraft metrics)
     +:+ " tracked aircraft as of "
     +:+ str_opt (get (Snapshot.last_updated snapshot)) +:+ "."] in
  let lines :=
    match Metrics.avg_altitude metrics with
    | Some avg =>
        if truthy_pyfloat avg
        then lines ++ ["Average altitude: " +:+ str_float avg +:+ " m."]
        else lines
    | None => lines
    end in
  let lines :=
    match Metrics.avg_velocity metrics with
    | Some avg =>
        if truthy_pyfloat avg
        then lines ++ ["Average velocity: " +:+ str_float avg +:+ " m/s."]
        else lines
    | None => lines
    end in
  let lines :=
    match anomalies with
    | _ :: _ =>
        lines ++ ["Detected " +:+ str_nat (length anomalies)
                  +:+ " anomalies requiring follow-up."]
    | [] => lines ++ ["No anomalies detected in the last snapshot."]
    end in
  join " " lines.

Definition analyze_region (client : MCPClient) (region : string) : result Analysis.t :=
  snapshot ← list_region_snapshot client region;
  states ← Snapshot.get_states snapshot;
  let frame : pd.DataFrame := states in
  let metrics := _compute_metrics frame in
  let anomalies := _detect_anomalies states in
  let summary := _build_summary region snapshot metrics anomalies in
  Ok {| Analysis.region := region;
        Analysis.last_updated := get (Snapshot.last_updated snapshot);
        Analysis.bounds := get (Snapshot.bounds snapshot);
        Analysis.metrics := metrics;
        Analysis.anomalies := anomalies;
        Analysis.summary := summary |}.

End OpsAnalystAgent.

(** ** [src/agents/traveler_agent.py] *)

(** The dictionary [get_flight_context] returns. *)
Module FlightContext.
Record t := {
  region : option string;
  last_updated : option string;
  state : FlightState.t;
  status : string;
}.
End FlightContext.

(** [f"{x:.0f}"]: the nearest integer, ties to even, with the sign of [x]
    kept when the digits are zero. *)
Definition format_0f (x : Qc) : string :=
  let r := round_half_even x in
  if (r =? 0) && bool_decide (x < 0)%Qc then "-0" else pretty r.

(** [a or b] on optional floats. *)
Definition or_float (a b : option Qc) : option Qc :=
  match a with
  | Some x => if truthy_float x then a else b
  | None => b
  end.

Module TravelerSupportAgent.

Definition _derive_status (state : FlightState.t) : string :=
  if negb (FlightState.truthy state) then "No telemetry available."
  else if from_option id false (get (FlightState.on_ground state))
  then "Aircraft is currently on the ground."
  else
    let altitude :=
      or_float (get (FlightState.geo_altitude state))
               (get (FlightState.baro_altitude state)) in
    let velocity := get (FlightState.velocity state) in
    match altitude with
    | Some alt =>
        if truthy_float alt then
          match velocity with
          | Some vel =>
              if truthy_float vel
              then "Aircraft cruising at approx " +:+ format_0f alt
                   +:+ " m with ground speed " +:+ format_0f vel +:+ " m/s."
              else "Aircraft altitude approx " +:+ format_0f alt +:+ " m."
          | None => "Aircraft altitude approx " +:+ format_0f alt +:+ " m."
          end
        else "Telemetry is partial but aircraft is airborne."
    | None => "Telemetry is partial but aircraft is airborne."
    end.

Definition get_flight_context (client : MCPClient) (callsign : string)
    : result FlightContext.t :=
  match find_by_callsign client callsign with
  | Raise (HTTPStatusError status_code) =>
      if status_code =? 404 then
        Ok {| FlightContext.region := None;
              FlightContext.last_updated := None;
              FlightContext.state := FlightState.empty;
              FlightContext.status :=
                "Flight not found in latest snapshots. Please verify the callsign." |}
      else Raise (HTTPStatusError status_code)
  | Raise e => Raise e
  | Ok payload =>
      let state := Server.state payload in
      let status := _derive_status state in
      Ok {| FlightContext.region := Some (Server.region payload);
            FlightContext.last_updated :=
              get (Snapshot.last_updated (Server.snapshot payload));
            FlightContext.state := state;
            FlightContext.status := status |}
  end.

End TravelerSupportAgent.

(** ** [src/agents/crew_runner.py] *)

(** The dictionary [_compact_analysis] returns. *)
Module Compact.
Record t := {
  region : string;
  last_updated : option string;
  metrics : Metrics.t;
  summary : string;
  anomalies : list Anomaly.t;
  alerts : list Alert.t;
}.
End Compact.

(** The dictionary [_compact_flight] returns. *)
Module CompactFlight.
Record t := {
  region : option string;
  last_updated : option string;
  status : string;
  callsign : option string;
  icao24 : option string;
  latitude : option Qc;
  longitude : option Qc;
  altitude : option Qc;
  velocity : option Qc;
  on_ground : option bool;
}.
End CompactFlight.

Module CrewRunner.

(** A value stored under a key of [GraphState]. *)
Inductive value :=
  | VNone
  | VStr (s : string)
  | VAnalysis (a : Analysis.t)
  | VAlerts (a : Alerts.t)
  | VFlight (f : CompactFlight.t).

(** [class GraphState(TypedDict, total=False)] *)
Abbreviation GraphState := (gmap string value).

(** The variables the two prompt templates are filled with.  The model
    hands the reasoning call the payloads themselves, not their JSON
    text. *)
Record OpsInputs := {
  ops_region : string;
  ops_question : string;
  analysis_json : Compact.t;
  alerts_json : list Alert.t;
}.

Record TravelerInputs := {
  traveler_callsign : string;
  traveler_question : string;
  ops_report : string;
  flight_json : CompactFlight.t;
}.

(** [xs[:n]] *)
Definition slice_to {A} (n : nat) (xs : list A) : list A := take n xs.

Definition _compact_analysis (analysis : Analysis.t) (alerts : Alerts.t) : Compact.t :=
  let slim_alerts := slice_to 10 (default [] (get (Alerts.alerts alerts))) in
  {| Compact.region := Analysis.region analysis;
     Compact.last_updated := Analysis.last_updated analysis;
     Compact.metrics := Analysis.metrics analysis;
     Compact.summary := Analysis.summary analysis;
     Compact.anomalies := slice_to 15 (Analysis.anomalies analysis);
     Compact.alerts := slim_alerts |}.

Definition _compact_flight (flight : FlightContext.t) : CompactFlight.t :=
  let state := FlightContext.state flight in
  {| CompactFlight.region := FlightContext.region flight;
     CompactFlight.last_updated := FlightContext.last_updated flight;
     CompactFlight.status := FlightContext.status flight;
     CompactFlight.callsign := get (FlightState.callsign state);
     CompactFlight.icao24 := get (FlightState.icao24 state);
     CompactFlight.latitude := get (FlightState.latitude state);
     CompactFlight.longitude := get (FlightState.longitude state);
     CompactFlight.altitude :=
       or_float (get (FlightState.geo_altitude state))
                (get (FlightState.baro_altitude state));
     CompactFlight.velocity := get (FlightState.velocity state);
     CompactFlight.on_ground := get (FlightState.on_ground state) |}.

(** [state[key]] for a key that holds a string. *)
Definition getitem_str (state : GraphState) (key : string) : result string :=
  match state !! key with
  | Some (VStr s) => Ok s
  | Some _ => Raise TypeError
  | None => Raise (KeyError key)
  end.

(** [state.get(key, "")] for a key that holds a string. *)
Definition get_str (state : GraphState) (key : string) : string :=
  match state !! key with
  | Some (VStr s) => s
  | _ => ""
  end.

Definition of_opt_str (x : option string) : value :=
  match x with
  | Some s => VStr s
  | None => VNone
  end.

Section nodes.

(** The module-level [client], shared by [ops_helper] and
    [traveler_helper], and the two chains [prompt | llm | parser]. *)
Variable client : MCPClient.
Variable ops_chain : OpsInputs → result string.
Variable traveler_chain : TravelerInputs → result string.

(** [create_ops_node(llm)] *)
Definition ops_node (state : GraphState) : result GraphState :=
  region ← getitem_str state "region";
  analysis ← OpsAnalystAgent.analyze_region client region;
  alerts ← list_alerts client;
  let compact := _compact_analysis analysis alerts in
  report ← ops_chain
    {| ops_region := region;
       ops_question := get_str state "question";
       analysis_json := compact;
       alerts_json := Compact.alerts compact |};
  let next_state := state in
  let next_state := <["ops_report" := VStr report]> next_state in
  let next_state := <["ops_structured" := VAnalysis analysis]> next_state in
  let next_state := <["alerts" := VAlerts alerts]> next_state in
  let next_state :=
    <["last_updated" := of_opt_str (Analysis.last_updated analysis)]> next_state in
  Ok next_state.

(** [create_traveler_node(llm)] *)
Definition traveler_node (state : GraphState) : result GraphState :=
  callsign ← getitem_str state "callsign";
  flight ← TravelerSupportAgent.get_flight_context client callsign;
  let compact_flight := _compact_flight flight in
  reply ← traveler_chain
    {| traveler_callsign := callsign;
       traveler_question := get_str state "question";
       ops_report := get_str state "ops_report";
       flight_json := compact_flight |};
  let next_state := state in
  let next_state := <["traveler_response" := VStr reply]> next_state in
  let next_state := <["flight_context" := VFlight compact_flight]> next_state in
  Ok next_state.

(** The compiled graph: entry point [ops], edge [ops -> traveler], edge
    [traveler -> END]. *)
Definition graph_invoke (state : GraphState) : result GraphState :=
  state ← ops_node state;
  traveler_node state.

(** The five-key dictionary [run_crewai] returns. *)
Record outputs := {
  out_ops_report : option value;
  out_traveler_response : option value;
  out_ops_structured : option value;
  out_flight_context : option value;
  out_alerts : option value;
}.

Definition initial_state (region callsign question : string) : GraphState :=
  {[ "region" := VStr region; "callsign" := VStr callsign;
     "question" := VStr question ]}.

Definition run_crewai (region callsign question : string) : result outputs :=
  result ← graph_invoke (initial_state region callsign question);
  Ok {| out_ops_report := result !! "ops_report";
        out_traveler_response := result !! "traveler_response";
        out_ops_structured := result !! "ops_structured";
        out_flight_context := result !! "flight_context";
        out_alerts := result !! "alerts" |}.

End nodes.

End CrewRunner.

(** ** Sample data

    Concrete states, snapshots and stores on which the definitions above
    are evaluated. *)

Module Sample.

(** A state as the ingestion job writes it: every key is there, and the
    keys not listed hold [null]. *)
Definition flight (icao24 : string) (callsign : field string)
    (velocity baro_altitude geo_altitude latitude longitude : field Qc)
    (time_position last_contact : field Z) : FlightState.t :=
  {| FlightState.icao24 := Val icao24;
     FlightState.callsign := callsign;
     FlightState.origin_country := Null;
     FlightState.time_position := time_position;
     FlightState.last_contact := last_contact;
     FlightState.longitude := longitude;
     FlightState.latitude := latitude;
     FlightState.baro_altitude := baro_altitude;
     FlightState.on_ground := Val false;
     FlightState.velocity := velocity;
     FlightState.true_track := Null;
     FlightState.vertical_rate := Null;
     FlightState.geo_altitude := geo_altitude;
     FlightState.squawk := Null;
     FlightState.spi := Null;
     FlightState.position_source := Null |}.

Definition num (n : Z) : field Qc := Val (Qc_of_Z n).

(** In cruise, nothing to report. *)
Definition cruising (icao24 : string) (callsign : field string) : FlightState.t :=
  flight icao24 callsign (num 230) (num 10000) (num 10100) (num 48) (num 11)
         (Val 1700000000) (Val 1700000005).

Definition snapshot_of (region : string) (states : list FlightState.t) : Snapshot.t :=
  {| Snapshot.region := Val region;
     Snapshot.last_updated := Val "2024-05-01T12:00:00Z";
     Snapshot.bounds := Null;
     Snapshot.states := Val states |}.

(** The same callsign, spelled differently, in two regions. *)
Definition abc_in_region1 : FlightState.t := cruising "4b1a01" (Val " Abc123").
Definition abc_in_region2 : FlightState.t := cruising "4b1a02" (Val "ABC123  ").
Definition region1_snapshot : Snapshot.t :=
  snapshot_of "region1" [cruising "3c0001" (Val "DLH4AB"); abc_in_region1].
Definition region2_snapshot : Snapshot.t :=
  snapshot_of "region2" [abc_in_region2; cruising "3c0002" (Val "KLM12")].

Definition two_regions : Server.disk :=
  {| Server.snapshot_dir :=
       Some {[ "region2" := Server.Parsed region2_snapshot;
               "region1" := Server.Parsed region1_snapshot ]};
     Server.alerts_file := None |}.

(** A state without a callsign in the second of two regions. *)
Definition anonymous : FlightState.t := cruising "4b1a03" Null.
Definition north_snapshot : Snapshot.t :=
  snapshot_of "north" [cruising "3c0003" (Val "SAS77")].
Definition south_snapshot : Snapshot.t :=
  snapshot_of "south" [cruising "3c0004" (Val "TAP9"); anonymous].

Definition north_south : Server.disk :=
  {| Server.snapshot_dir :=
       Some {[ "south" := Server.Parsed south_snapshot;
               "north" := Server.Parsed north_snapshot ]};
     Server.alerts_file := None |}.

(** A client that serves one snapshot for every region and has no alerts;
    no callsign is known to it. *)
Definition serving (snapshot : Snapshot.t) : MCPClient :=
  {| list_region_snapshot := λ _, Ok snapshot;
     find_by_callsign := λ _, Raise (HTTPStatusError 404);
     list_alerts := Ok {| Alerts.last_updated := Val ""; Alerts.alerts := Val [] |} |}.

(** Over the equator: latitude 0.0, everything else as in cruise. *)
Definition on_equator : FlightState.t :=
  flight "4b1a04" (Val "SWR8") (num 230) (num 10000) (num 10100) (num 0) (num 11)
         (Val 1700000000) (Val 1700000005).

(** Position and speed known, but no geometric altitude. *)
Definition no_geo_altitude : FlightState.t :=
  flight "4b1a05" (Val "EZY5") (num 230) (num 10000) Null (num 48) (num 11)
         (Val 1700000000) (Val 1700000005).

(** Parked: speed 0.0, no barometric altitude. *)
Definition parked : FlightState.t :=
  flight "4b1a06" (Val "AFR1") (num 0) Null (num 95) (num 48) (num 11)
         (Val 1700000000) (Val 1700000005).

(** No callsign, and an ICAO24 address with blanks around it. *)
Definition padded_icao24 : FlightState.t :=
  flight " abc " Null (num 300) (num 10000) (num 10100) (num 48) (num 11)
         (Val 1700000000) (Val 1700000005).

(** Scenario A of the specification. *)
Definition fast_and_low : FlightState.t :=
  flight "4b1a07" (Val "TEST123") (num 300) (num 250) (num 260) (num 48) (num 11)
         (Val 1700000000) (Val 1700000005).

(** A client whose callsign lookup is answered with a server error. *)
Definition failing_lookup (snapshot : Snapshot.t) : MCPClient :=
  {| list_region_snapshot := λ _, Ok snapshot;
     find_by_callsign := λ _, Raise (HTTPStatusError 500);
     list_alerts := Ok {| Alerts.last_updated := Val ""; Alerts.alerts := Val [] |} |}.

(** Reasoning calls that answer. *)
Definition ops_answers (inputs : CrewRunner.OpsInputs) : result string :=
  Ok ("HANDOFF: nothing unusual in " +:+ CrewRunner.ops_region inputs).
Definition traveler_answers (inputs : CrewRunner.TravelerInputs) : result string :=
  Ok (CompactFlight.status (CrewRunner.flight_json inputs)).

(** Twenty anomalies, numbered in the order of detection. *)
Definition twenty_anomalies : list Anomaly.t :=
  (λ i, Anomaly.Build_t "TEST123" "Stale telemetry" (AInt i)) <$> seqZ 46 20.

End Sample.

(** * Properties *)

(** ** Strings: [strip] and [upper] *)

Module PyFacts.

Lemma is_space_upper_char c : is_space (upper_char c) = is_space c.
Proof. by destruct c as [[] [] [] [] [] [] [] []]. Qed.

Lemma upper_char_idemp c : upper_char (upper_char c) = upper_char c.
Proof. by destruct c as [[] [] [] [] [] [] [] []]. Qed.

Lemma upper_idemp s : upper (upper s) = upper s.
Proof. induction s as [|c s IH]; simpl; [done|]. by rewrite upper_char_idemp, IH. Qed.

Lemma upper_empty s : upper s = "" ↔ s = "".
Proof. by destruct s. Qed.

Lemma lstrip_upper s : lstrip (upper s) = upper (lstrip s).
Proof.
  induction s as [|c s IH]; simpl; [done|].
  rewrite is_space_upper_char. by destruct (is_space c).
Qed.

Lemma rstrip_upper s : rstrip (upper s) = upper (rstrip s).
Proof.
  induction s as [|c s IH]; simpl; [done|].
  rewrite IH. destruct (rstrip s) as [|b r]; simpl; [|done].
  rewrite is_space_upper_char. by destruct (is_space c).
Qed.

Lemma strip_upper s : strip (upper s) = upper (strip s).
Proof. unfold strip. by rewrite lstrip_upper, rstrip_upper. Qed.

(** What [lstrip] leaves starts with a character that is not a space. *)
Lemma lstrip_head s c r : lstrip s = String c r → is_space c = false.
Proof.
  induction s as [|a s IH]; simpl; [done|].
  destruct (is_space a) eqn:Ha; [done|]. by intros [= <- _].
Qed.

Lemma rstrip_head c r :
  is_space c = false → ∃ r', rstrip (String c r) = String c r'.
Proof. intros Hc. simpl. destruct (rstrip r); rewrite ?Hc; eauto. Qed.

Lemma rstrip_idemp s : rstrip (rstrip s) = rstrip s.
Proof.
  induction s as [|c s IH]; simpl; [done|].
  destruct (rstrip s) as [|b r] eqn:E.
  - destruct (is_space c) eqn:Hc; simpl; by rewrite ?Hc.
  - change (rstrip (String c (String b r))) with
      (match rstrip (String b r) with
       | "" => if is_space c then "" else String c ""
       | String _ _ as t => String c t
       end).
    by rewrite IH.
Qed.

Lemma lstrip_fixed c r : is_space c = false → lstrip (String c r) = String c r.
Proof. intros Hc. simpl. by rewrite Hc. Qed.

Lemma strip_idemp s : strip (strip s) = strip s.
Proof.
  unfold strip. destruct (lstrip s) as [|c r] eqn:E; [done|].
  apply lstrip_head in E as Hc.
  destruct (rstrip_head c r Hc) as [r' Hr]. rewrite Hr.
  rewrite (lstrip_fixed c r' Hc), <-Hr. apply rstrip_idemp.
Qed.

(** The normal form the locator compares: [s.strip().upper()]. *)
Lemma normalize_idemp s : upper (strip (upper (strip s))) = upper (strip s).
Proof. by rewrite strip_upper, strip_idemp, upper_idemp. Qed.

Lemma lstrip_blank s : lstrip s = "" ↔ blank s = true.
Proof.
  induction s as [|c s IH]; simpl; [done|].
  destruct (is_space c); simpl; [done|]. split; discriminate.
Qed.

Lemma rstrip_blank s : rstrip s = "" ↔ blank s = true.
Proof.
  induction s as [|c s IH]; simpl; [done|].
  destruct (rstrip s) as [|b r].
  - destruct (is_space c); simpl; [tauto|]. split; discriminate.
  - split; [discriminate|]. intros [_ H]%andb_true_iff. by apply IH in H.
Qed.

Lemma strip_blank s : strip s = "" ↔ blank s = true.
Proof.
  unfold strip. rewrite rstrip_blank. split.
  - intros Hb. apply lstrip_blank. destruct (lstrip s) as [|c r] eqn:E; [done|].
    apply lstrip_head in E. simpl in Hb. by rewrite E in Hb.
  - intros Hb. apply lstrip_blank in Hb. by rewrite Hb.
Qed.

Lemma normalize_blank s : upper (strip s) = "" ↔ blank s = true.
Proof. by rewrite upper_empty, strip_blank. Qed.

End PyFacts.

(** ** The snapshot store and the cross-region locator *)

Module ServerFacts.
Import Server.

(** [r] sorts strictly before [r'] among the region ids. *)
Definition strictly_before (r r' : string) : Prop := String.le r r' ∧ r ≠ r'.

(** The stored callsign is null, empty or whitespace only. *)
Definition stored_blank (state : FlightState.t) : bool :=
  match get (FlightState.callsign state) with
  | None => true
  | Some c => blank c
  end.

Section locator.
Context (d : disk).

(** The snapshot of region [r] loads and its states can be scanned. *)
Definition readable (r : string) : Prop :=
  ∃ snap sts, _load_snapshot d r = Ok snap ∧ Snapshot.get_states snap = Ok sts.

(** Region [r] loads and none of its states matches. *)
Definition no_match_in (normalized r : string) : Prop :=
  ∃ snap sts, _load_snapshot d r = Ok snap ∧ Snapshot.get_states snap = Ok sts
    ∧ Forall (λ s, callsign_matches normalized s = false) sts.

(** [found] is the first match of the store: its region is listed, its
    state is the first match of that region's snapshot, and every region
    listed before it was read and held no match. *)
Definition first_in_store (normalized : string) (found : located) : Prop :=
  region found ∈ _list_regions d
  ∧ _load_snapshot d (region found) = Ok (snapshot found)
  ∧ (∃ sts pre post,
        Snapshot.get_states (snapshot found) = Ok sts
        ∧ sts = pre ++ state found :: post
        ∧ callsign_matches normalized (state found) = true
        ∧ Forall (λ s, callsign_matches normalized s = false) pre)
  ∧ ∀ r, r ∈ _list_regions d → strictly_before r (region found) →
      no_match_in normalized r.

Lemma list_regions_sorted : StronglySorted String.le (_list_regions d).
Proof.
  unfold _list_regions. destruct (snapshot_dir d); [|constructor].
  apply StronglySorted_merge_sort; apply _.
Qed.

Lemma list_regions_NoDup : NoDup (_list_regions d).
Proof.
  unfold _list_regions. destruct (snapshot_dir d); [|constructor].
  rewrite merge_sort_Permutation. apply NoDup_elements.
Qed.

Lemma elem_of_list_regions r :
  r ∈ _list_regions d ↔ is_Some (snapshot_dir d ≫= (.!! r)).
Proof.
  unfold _list_regions. destruct (snapshot_dir d) as [files|]; simpl.
  - by rewrite merge_sort_Permutation, elem_of_elements, elem_of_dom.
  - rewrite elem_of_nil. split; [done|]. by intros [? ?].
Qed.

(** Where a region stands in the listing decides what stands before it. *)
Lemma list_regions_split pre r post :
  _list_regions d = pre ++ r :: post →
  ∀ r', r' ∈ pre ↔ r' ∈ _list_regions d ∧ strictly_before r' r.
Proof.
  intros E r'. pose proof list_regions_sorted as HS.
  pose proof list_regions_NoDup as HN. rewrite E in HS, HN |- *.
  apply NoDup_app in HN as (_ & Hpre & [Hpost _]%NoDup_cons).
  split.
  - intros Hin. split; [set_solver|]. split.
    + eapply (StronglySorted_app_1_elem_of _ pre (r :: post)); [done..|set_solver].
    + intros ->. apply (Hpre r Hin). set_solver.
  - intros [Hin [Hle Hne]].
    apply elem_of_app in Hin as [?|[->|Hin]%elem_of_cons]; [done..|].
    apply StronglySorted_app_1_r, StronglySorted_cons in HS as [HS _].
    rewrite Forall_forall in HS. apply HS in Hin.
    destruct Hne. by apply (anti_symm String.le).
Qed.

Lemma first_match_None normalized sts :
  first_match normalized sts = None
  ↔ Forall (λ s, callsign_matches normalized s = false) sts.
Proof.
  induction sts as [|s sts IH]; simpl.
  - split; [constructor|done].
  - rewrite Forall_cons, <-IH. destruct (callsign_matches normalized s).
    + split; [done|]. by intros [? _].
    + tauto.
Qed.

Lemma first_match_Some normalized sts s :
  first_match normalized sts = Some s
  ↔ ∃ pre post, sts = pre ++ s :: post
      ∧ callsign_matches normalized s = true
      ∧ Forall (λ x, callsign_matches normalized x = false) pre.
Proof.
  induction sts as [|x sts IH]; simpl.
  - split; [done|]. intros ([|??] & ? & ? & _); done.
  - destruct (callsign_matches normalized x) eqn:Hx.
    + split.
      * intros [= <-]. by exists [], sts.
      * intros ([|y pre] & post & E & Hs & Hpre); simplify_eq/=; [done|].
        apply Forall_cons in Hpre as [? _]. congruence.
    + rewrite IH. split.
      * intros (pre & post & -> & ? & ?). exists (x :: pre), post.
        by rewrite Forall_cons.
      * intros ([|y pre] & post & E & Hs & Hpre); simplify_eq/=; [congruence|].
        apply Forall_cons in Hpre as [_ ?]. eauto.
Qed.

Lemma first_match_elem_of normalized sts s :
  s ∈ sts → callsign_matches normalized s = true →
  is_Some (first_match normalized sts).
Proof.
  intros Hin Hs. destruct (first_match normalized sts) eqn:E; [done|].
  apply first_match_None in E. rewrite Forall_forall in E.
  apply E in Hin. congruence.
Qed.

Lemma scan_regions_Some normalized regions found :
  scan_regions d normalized regions = Ok (Some found)
  ↔ ∃ pre post sts, regions = pre ++ region found :: post
      ∧ Forall (no_match_in normalized) pre
      ∧ _load_snapshot d (region found) = Ok (snapshot found)
      ∧ Snapshot.get_states (snapshot found) = Ok sts
      ∧ first_match normalized sts = Some (state found).
Proof.
  induction regions as [|r regions IH]; simpl.
  - split; [done|]. intros ([|??] & ? & ? & ? & _); done.
  - split.
    + destruct (_load_snapshot d r) as [snap|] eqn:Hload; simpl; [|done].
      destruct (Snapshot.get_states snap) as [sts|] eqn:Hsts; simpl; [|done].
      destruct (first_match normalized sts) as [s|] eqn:Hfirst.
      * intros [= <-]. by exists [], regions, sts.
      * intros (pre & post & sts' & -> & ? & ? & ? & ?)%IH.
        exists (r :: pre), post, sts'. split_and!; try done.
        constructor; [|done]. exists snap, sts.
        by rewrite <-first_match_None.
    + intros ([|r' pre] & post & sts & E & Hpre & Hload & Hsts & Hfirst);
        simplify_eq/=.
      * rewrite Hload. simpl. rewrite Hsts. simpl. rewrite Hfirst.
        by destruct found.
      * apply Forall_cons in Hpre as [(snap & sts' & -> & Hs & Hnone) Hpre].
        simpl. rewrite Hs. simpl.
        apply first_match_None in Hnone as ->. apply IH. eauto 10.
Qed.

(** A match that the scan can reach is found: the scan does not stop on
    "not found" while a readable region further on holds a match. *)
Lemma scan_regions_finds normalized regions r snap sts s :
  r ∈ regions →
  _load_snapshot d r = Ok snap → Snapshot.get_states snap = Ok sts →
  s ∈ sts → callsign_matches normalized s = true →
  (∀ pre post, regions = pre ++ r :: post → Forall readable pre) →
  ∃ found, scan_regions d normalized regions = Ok (Some found).
Proof.
  intros Hin Hload Hsts Hs Hm. induction regions as [|r0 regions IH]; intros Hpre.
  { by apply elem_of_nil in Hin. }
  simpl. destruct (decide (r0 = r)) as [->|Hne].
  - rewrite Hload. simpl. rewrite Hsts. simpl.
    destruct (first_match_elem_of normalized sts s Hs Hm) as [s' ->]. eauto.
  - apply elem_of_cons in Hin as [?|Hin]; [done|].
    destruct (list_elem_of_split _ _ Hin) as (pre & post & E).
    pose proof (Hpre (r0 :: pre) post) as H0. rewrite E in H0.
    specialize (H0 eq_refl). apply Forall_cons in H0 as [(sn0 & st0 & -> & Hst0) _].
    simpl. rewrite Hst0. simpl.
    destruct (first_match normalized st0); [eauto|].
    apply IH; [done|]. intros pre' post' E'.
    specialize (Hpre (r0 :: pre') post'). rewrite E' in Hpre.
    specialize (Hpre eq_refl). by apply Forall_cons in Hpre as [_ ?].
Qed.

Lemma find_by_callsign_first normalized found :
  scan_regions d normalized (_list_regions d) = Ok (Some found) →
  first_in_store normalized found.
Proof.
  intros (pre & post & sts & E & Hpre & Hload & Hsts & Hfirst)%scan_regions_Some.
  apply first_match_Some in Hfirst as (spre & spost & -> & Hs & Hspre).
  split_and!; [rewrite E; set_solver|done|by eauto 10|].
  intros r Hr Hbefore. rewrite Forall_forall in Hpre. apply Hpre.
  by apply (list_regions_split _ _ _ E).
Qed.

Lemma find_by_callsign_reaches normalized r snap sts s :
  _load_snapshot d r = Ok snap → Snapshot.get_states snap = Ok sts →
  s ∈ sts → callsign_matches normalized s = true →
  (∀ r', r' ∈ _list_regions d → strictly_before r' r → readable r') →
  ∃ found, scan_regions d normalized (_list_regions d) = Ok (Some found).
Proof.
  intros Hload Hsts Hs Hm Hread.
  apply (scan_regions_finds normalized _ r snap sts s); try done.
  - apply elem_of_list_regions. unfold _load_snapshot in Hload.
    destruct (snapshot_dir d ≫= (.!! r)); [done|discriminate].
  - intros pre post E. apply Forall_forall. intros r' Hr'.
    apply (list_regions_split _ _ _ E) in Hr' as [? ?]. by apply Hread.
Qed.

Lemma normalized_arg_irrelevant c1 c2 :
  upper (strip c1) = upper (strip c2) →
  _find_by_callsign d c1 = _find_by_callsign d c2.
Proof. unfold _find_by_callsign. by intros ->. Qed.

Lemma load_snapshot_inj r snap snap' :
  _load_snapshot d r = Ok snap → _load_snapshot d r = Ok snap' → snap = snap'.
Proof. congruence. Qed.

(** A region that holds a match is not skipped: no later region is
    reported. *)
Lemma match_not_after normalized found r snap sts s :
  first_in_store normalized found →
  _load_snapshot d r = Ok snap → Snapshot.get_states snap = Ok sts →
  s ∈ sts → callsign_matches normalized s = true →
  String.le (region found) r.
Proof.
  intros (_ & _ & _ & Hbefore) Hload Hsts Hs Hm.
  destruct (decide (region found = r)) as [->|Hne]; [done|].
  destruct (total String.le (region found) r) as [?|Hle]; [done|].
  destruct (Hbefore r) as (snap' & sts' & Hload' & Hsts' & Hnone).
  - apply elem_of_list_regions. unfold _load_snapshot in Hload.
    destruct (snapshot_dir d ≫= (.!! r)); [done|discriminate].
  - split; [done|congruence].
  - rewrite Hload in Hload'. simplify_eq. rewrite Hsts in Hsts'. simplify_eq.
    rewrite Forall_forall in Hnone. apply Hnone in Hs. congruence.
Qed.

Lemma callsign_matches_blank state :
  callsign_matches "" state = stored_blank state.
Proof.
  unfold callsign_matches, stored_blank.
  destruct (get (FlightState.callsign state)) as [c|]; simpl; [|done].
  destruct c as [|a c]; [done|]. cbn [truthy_str].
  destruct (blank (String a c)) eqn:Hb.
  - apply bool_decide_eq_true. by apply PyFacts.normalize_blank.
  - apply bool_decide_eq_false. rewrite PyFacts.normalize_blank. congruence.
Qed.

(** C3. The locator compares the trimmed, uppercased argument with the
    trimmed, uppercased stored callsigns, so arguments with the same normal
    form give the same result, in particular the three spellings "abc123",
    "ABC123" and " ABC123 ".  Regions are visited in lexicographic order of
    their ids, and a successful result is the first matching state of the
    first region that holds a match, every region before it having been
    read without a match.  When a region [r1] holds the callsign, a region
    [r2] that sorts after it is never reported, whatever [r2] holds; and
    when no region before [r1] holds the callsign, the result reports
    [r1] with the first matching state of its snapshot. *)
Theorem find_by_callsign_normalized_first_match :
  (∀ c1 c2, upper (strip c1) = upper (strip c2) →
     _find_by_callsign d c1 = _find_by_callsign d c2)
  ∧ (_find_by_callsign d "abc123" = _find_by_callsign d "ABC123"
     ∧ _find_by_callsign d " ABC123 " = _find_by_callsign d "ABC123")
  ∧ StronglySorted String.le (_list_regions d)
  ∧ (∀ c found, _find_by_callsign d c = Ok (Some found) →
       first_in_store (upper (strip c)) found)
  ∧ (∀ c r1 r2 snap1 sts1 s1,
       strictly_before r1 r2 →
       _load_snapshot d r1 = Ok snap1 → Snapshot.get_states snap1 = Ok sts1 →
       s1 ∈ sts1 → callsign_matches (upper (strip c)) s1 = true →
       (∀ found, _find_by_callsign d c = Ok (Some found) →
          String.le (region found) r1 ∧ region found ≠ r2)
       ∧ ((∀ r, r ∈ _list_regions d → strictly_before r r1 →
             no_match_in (upper (strip c)) r) →
          ∃ found, _find_by_callsign d c = Ok (Some found)
            ∧ region found = r1 ∧ snapshot found = snap1
            ∧ first_match (upper (strip c)) sts1 = Some (state found))).
Proof.
  split_and!.
  - apply normalized_arg_irrelevant.
  - by apply normalized_arg_irrelevant.
  - by apply normalized_arg_irrelevant.
  - apply list_regions_sorted.
  - intros c found. apply find_by_callsign_first.
  - intros c r1 r2 snap1 sts1 s1 [Hle Hne] Hload Hsts Hs Hm. split.
    + intros found Hfound%find_by_callsign_first.
      pose proof (match_not_after _ _ _ _ _ _ Hfound Hload Hsts Hs Hm) as Hfr.
      split; [done|]. intros E. rewrite E in Hfr.
      destruct Hne. by apply (anti_symm String.le).
    + intros Hbefore.
      destruct (find_by_callsign_reaches (upper (strip c)) r1 snap1 sts1 s1)
        as [found Hscan]; try done.
      { intros r Hr Hlt. destruct (Hbefore r Hr Hlt) as (sn & st & ? & ? & _).
        by exists sn, st. }
      exists found. split; [done|].
      pose proof (find_by_callsign_first _ _ Hscan) as Hfirst.
      pose proof (match_not_after _ _ _ _ _ _ Hfirst Hload Hsts Hs Hm) as Hfr.
      assert (region found = r1) as Er.
      { destruct (decide (region found = r1)) as [|Hd]; [done|].
        destruct Hfirst as (Hin & Hl & (sts & pre & post & Hg & -> & Hmf & _) & _).
        destruct (Hbefore (region found) Hin) as (sn & st & Hl' & Hg' & Hnone);
          [by split|].
        rewrite Hl in Hl'. simplify_eq. rewrite Hg in Hg'. simplify_eq.
        rewrite Forall_forall in Hnone. rewrite Hnone in Hmf; [done|].
        apply elem_of_app. right. apply elem_of_cons. by left. }
      apply scan_regions_Some in Hscan
        as (_ & _ & sts & _ & _ & Hl & Hg & Hf).
      rewrite Er in Hl. rewrite Hload in Hl. simplify_eq.
      by rewrite Hsts in Hg; simplify_eq.
Qed.

(** C10. An argument that is empty or whitespace only normalizes to the
    empty string, which is also the normal form of a stored callsign that
    is null, empty or whitespace only.  So when a region holds such a state
    and the regions listed before it can be read, the lookup succeeds (the
    route answers with the match, not with 404), and what it returns is
    the first such state in region order, then snapshot order. *)
Theorem find_by_callsign_blank_argument (callsign r : string) snap sts s :
  blank callsign = true →
  _load_snapshot d r = Ok snap → Snapshot.get_states snap = Ok sts →
  s ∈ sts → stored_blank s = true →
  (∀ r', r' ∈ _list_regions d → strictly_before r' r → readable r') →
  upper (strip callsign) = ""
  ∧ (∀ state, callsign_matches "" state = stored_blank state)
  ∧ ∃ found, _find_by_callsign d callsign = Ok (Some found)
      ∧ get_flight_by_callsign d callsign = Ok found
      ∧ stored_blank (state found) = true
      ∧ first_in_store "" found.
Proof.
  intros Hb%PyFacts.normalize_blank Hload Hsts Hs Hblank Hread.
  split; [done|]. split; [apply callsign_matches_blank|].
  destruct (find_by_callsign_reaches "" r snap sts s) as [found Hscan];
    try done.
  { by rewrite callsign_matches_blank. }
  exists found. unfold get_flight_by_callsign, _find_by_callsign.
  rewrite Hb, Hscan. split_and!; try done.
  - apply find_by_callsign_first in Hscan
      as (_ & _ & (? & ? & ? & _ & _ & Hm & _) & _).
    by rewrite callsign_matches_blank in Hm.
  - by apply find_by_callsign_first.
Qed.

End locator.
Lemma find_by_callsign_normalized_first_match_witness :
  _find_by_callsign Sample.two_regions "abc123"
    = _find_by_callsign Sample.two_regions " ABC123 "
  ∧ ∃ found, _find_by_callsign Sample.two_regions "abc123" = Ok (Some found)
      ∧ region found = "region1"
      ∧ state found = Sample.abc_in_region1.
Proof.
  destruct (find_by_callsign_normalized_first_match Sample.two_regions)
    as (Hnorm & _ & _ & _ & Htie).
  split; [apply Hnorm; vm_compute; reflexivity|].
  destruct (Htie "abc123" "region1" "region2" Sample.region1_snapshot
              [Sample.cruising "3c0001" (Val "DLH4AB"); Sample.abc_in_region1]
              Sample.abc_in_region1) as [_ Hfirst].
  - split; [vm_compute; exact I|discriminate].
  - vm_compute; reflexivity.
  - vm_compute; reflexivity.
  - apply elem_of_cons. right. apply elem_of_cons. left. reflexivity.
  - vm_compute; reflexivity.
  - destruct Hfirst as (found & Hfound & Hregion & _ & Hstate).
    + intros r Hr [Hle Hne].
      assert (_list_regions Sample.two_regions = ["region1"; "region2"]) as E
        by (vm_compute; reflexivity).
      rewrite E in Hr. apply elem_of_cons in Hr as [->|Hr]; [destruct Hne; reflexivity|].
      apply list_elem_of_singleton in Hr as ->. vm_compute in Hle. destruct Hle.
    + exists found. split; [exact Hfound|]. split; [exact Hregion|].
      assert (first_match (upper (strip "abc123"))
                [Sample.cruising "3c0001" (Val "DLH4AB"); Sample.abc_in_region1]
              = Some Sample.abc_in_region1) as E by (vm_compute; reflexivity).
      rewrite E in Hstate. injection Hstate as <-. reflexivity.
Defined.

Lemma find_by_callsign_blank_argument_witness :
  ∃ found, _find_by_callsign Sample.north_south "  " = Ok (Some found)
    ∧ region found = "south" ∧ state found = Sample.anonymous.
Proof.
  destruct (find_by_callsign_blank_argument Sample.north_south "  " "south"
              Sample.south_snapshot
              [Sample.cruising "3c0004" (Val "TAP9"); Sample.anonymous]
              Sample.anonymous) as (_ & _ & found & Hfound & _).
  - vm_compute; reflexivity.
  - vm_compute; reflexivity.
  - vm_compute; reflexivity.
  - apply elem_of_cons. right. apply elem_of_cons. left. reflexivity.
  - vm_compute; reflexivity.
  - intros r Hr [Hle Hne].
    assert (_list_regions Sample.north_south = ["north"; "south"]) as E
      by (vm_compute; reflexivity).
    rewrite E in Hr. apply elem_of_cons in Hr as [->|Hr].
    + exists Sample.north_snapshot, [Sample.cruising "3c0003" (Val "SAS77")].
      split; vm_compute; reflexivity.
    + apply list_elem_of_singleton in Hr as ->. destruct Hne; reflexivity.
  - exists found.
    assert (_find_by_callsign Sample.north_south "  "
            = Ok (Some {| region := "south"; snapshot := Sample.south_snapshot;
                          state := Sample.anonymous |})) as E
      by (vm_compute; reflexivity).
    rewrite E in Hfound. injection Hfound as <-. repeat split; exact E.
Defined.

End ServerFacts.

(** ** The metrics and anomaly engine *)

Module OpsFacts.
Import OpsAnalystAgent.

(** The callsign every anomaly of [state] carries. *)
Definition recorded_callsign (state : FlightState.t) : string :=
  strip (or_str (get (FlightState.callsign state))
           (or_str (get (FlightState.icao24 state)) "UNKNOWN")).

Lemma Qc_of_Z_lt (m n : Z) : (Qc_of_Z m < Qc_of_Z n)%Qc ↔ m < n.
Proof. unfold Qclt. simpl. by rewrite <-Zlt_Qlt. Qed.

Lemma truthy_float_above (x : Qc) : (Qc_of_Z 280 < x)%Qc → truthy_float x = true.
Proof.
  intros Hx. unfold truthy_float. apply negb_true_iff, bool_decide_eq_false.
  intros ->. apply (Qclt_not_le _ _ Hx). by apply Qclt_le_weak, Qc_of_Z_lt.
Qed.

(** Each test only appends. *)
Lemma check_velocity_app cs state anomalies :
  check_velocity cs state anomalies = anomalies ++ check_velocity cs state [].
Proof.
  unfold check_velocity. destruct (get (FlightState.velocity state)) as [v|];
    [destruct (_ && _)|]; by rewrite ?app_nil_r.
Qed.

Lemma check_altitude_app cs state anomalies :
  check_altitude cs state anomalies = anomalies ++ check_altitude cs state [].
Proof.
  unfold check_altitude. destruct (get (FlightState.baro_altitude state)) as [b|];
    [destruct (bool_decide _)|]; by rewrite ?app_nil_r.
Qed.

Lemma check_latency_app cs state anomalies :
  check_latency cs state anomalies = anomalies ++ check_latency cs state [].
Proof.
  unfold check_latency.
  destruct (get (FlightState.last_contact state)) as [lc|];
    [destruct (get (FlightState.time_position state)) as [tp|];
       [destruct (_ && _); [simpl; destruct (45 <? _)|]|]|];
    by rewrite ?app_nil_r.
Qed.

Lemma check_coordinates_app cs state anomalies :
  check_coordinates cs state anomalies = anomalies ++ check_coordinates cs state [].
Proof.
  unfold check_coordinates. destruct (_ || _); by rewrite ?app_nil_r.
Qed.

(** What one iteration appends: the findings of the four tests, in the
    order of the tests. *)
Lemma detect_state_rules anomalies state :
  detect_state anomalies state
  = anomalies
    ++ check_velocity (recorded_callsign state) state []
    ++ check_altitude (recorded_callsign state) state []
    ++ check_latency (recorded_callsign state) state []
    ++ check_coordinates (recorded_callsign state) state [].
Proof.
  unfold detect_state. fold (recorded_callsign state). cbv zeta.
  rewrite check_coordinates_app, check_latency_app, check_altitude_app,
    check_velocity_app.
  by rewrite <-!app_assoc.
Qed.

Lemma detect_state_app anomalies state :
  detect_state anomalies state = anomalies ++ detect_state [] state.
Proof. by rewrite (detect_state_rules anomalies), (detect_state_rules []). Qed.

Lemma detect_anomalies_from anomalies states :
  foldl detect_state anomalies states
  = anomalies ++ concat (detect_state [] <$> states).
Proof.
  revert anomalies. induction states as [|s states IH]; intros acc; simpl.
  - by rewrite app_nil_r.
  - by rewrite IH, (detect_state_app acc), app_assoc.
Qed.

(** The anomalies of a snapshot are those of its states, state after
    state. *)
Lemma detect_anomalies_concat states :
  _detect_anomalies states = concat (detect_state [] <$> states).
Proof. apply detect_anomalies_from. Qed.

Lemma elem_of_detect_anomalies a states :
  a ∈ _detect_anomalies states
  ↔ ∃ state, state ∈ states ∧ a ∈ detect_state [] state.
Proof.
  rewrite detect_anomalies_concat.
  induction states as [|s states IH]; simpl.
  - rewrite elem_of_nil. split; [done|]. by intros (? & ?%elem_of_nil & _).
  - rewrite elem_of_app, IH. split.
    + intros [Ha|(state & Hs & Ha)]; [exists s|exists state];
        (split; [|done]); apply elem_of_cons; auto.
    + intros (state & [->|Hs]%elem_of_cons & Ha); eauto.
Qed.

Lemma recorded_callsign_of a state :
  a ∈ detect_state [] state → Anomaly.callsign a = recorded_callsign state.
Proof.
  rewrite detect_state_rules, app_nil_l, !elem_of_app.
  unfold check_velocity, check_altitude, check_latency, check_coordinates.
  intros [H|[H|[H|H]]];
    repeat match type of H with
    | _ ∈ match ?x with _ => _ end => destruct x
    | _ ∈ (let _ := _ in _) => cbv zeta in H
    end;
    first [by apply elem_of_nil in H
          |by apply elem_of_app in H as [?%elem_of_nil| ->%list_elem_of_singleton]].
Qed.

(** C1 (the code departs from the rule).  A state over the equator has
    both coordinates, the latitude being 0.0; the last test of the loop
    takes a coordinate that is zero for a missing one, and the state is
    reported with "Missing coordinates". *)
Theorem missing_coordinates_on_equator :
  get (FlightState.latitude Sample.on_equator) = Some 0%Qc
  ∧ get (FlightState.longitude Sample.on_equator) = Some (Qc_of_Z 11)
  ∧ _detect_anomalies [Sample.on_equator]
    = [Anomaly.Build_t "SWR8" "Missing coordinates" (AStr "n/a")].
Proof.
  split_and!; [|done|by vm_compute].
  simpl. f_equal. by apply Qc_is_canon.
Qed.

(** C9, as amended.  Every anomaly produced for a state carries the same
    callsign: the state's callsign, trimmed, when it is neither null nor
    empty; otherwise the state's ICAO24 address, trimmed as well, when that
    is neither null nor empty; otherwise the literal "UNKNOWN". *)
Theorem anomaly_callsign_fallback (states : list FlightState.t) (a : Anomaly.t) :
  a ∈ _detect_anomalies states →
  ∃ state, state ∈ states ∧ a ∈ detect_state [] state
    ∧ (∀ c, get (FlightState.callsign state) = Some c → c ≠ "" →
         Anomaly.callsign a = strip c)
    ∧ (get (FlightState.callsign state) = None
       ∨ get (FlightState.callsign state) = Some "" →
       (∀ i, get (FlightState.icao24 state) = Some i → i ≠ "" →
          Anomaly.callsign a = strip i)
       ∧ (get (FlightState.icao24 state) = None
          ∨ get (FlightState.icao24 state) = Some "" →
          Anomaly.callsign a = "UNKNOWN")).
Proof.
  intros (state & Hs & Ha)%elem_of_detect_anomalies.
  exists state. split; [done|]. split; [done|].
  rewrite (recorded_callsign_of a state Ha). unfold recorded_callsign.
  split; [|intros Hcs; split].
  - intros c -> Hc. by destruct c.
  - intros i Hi Hne. destruct Hcs as [-> | ->]; simpl; rewrite Hi; by destruct i.
  - intros Hi. destruct Hcs as [-> | ->]; destruct Hi as [-> | ->]; reflexivity.
Qed.

Lemma anomaly_callsign_fallback_witness :
  ∃ state, state ∈ [Sample.fast_and_low]
    ∧ Anomaly.callsign (Anomaly.Build_t "TEST123" "High velocity" (AFloat (Qc_of_Z 300)))
      = strip "TEST123".
Proof.
  destruct (anomaly_callsign_fallback [Sample.fast_and_low]
              (Anomaly.Build_t "TEST123" "High velocity" (AFloat (Qc_of_Z 300))))
    as (state & Hs & _ & Hc & _).
  - apply elem_of_cons. left. vm_compute. reflexivity.
  - exists state. split; [exact Hs|].
    apply list_elem_of_singleton in Hs. subst state.
    apply Hc; [reflexivity|discriminate].
Defined.

(** C9, as stated, fails: with no callsign the anomaly does not carry the
    state's ICAO24 address but the address trimmed. *)
Lemma anomaly_callsign_is_trimmed_icao24 :
  get (FlightState.callsign Sample.padded_icao24) = None
  ∧ get (FlightState.icao24 Sample.padded_icao24) = Some " abc "
  ∧ _detect_anomalies [Sample.padded_icao24]
    = [Anomaly.Build_t "abc" "High velocity" (AFloat (Qc_of_Z 300))].
Proof. split_and!; [done..|by vm_compute]. Qed.

(** C4 (the code departs from the rule).  A snapshot with one state whose
    geometric altitude is null: the column exists, no cell of it holds a
    value, and the average is NaN, not null.  The summary prints it. *)
Theorem average_of_no_value_is_nan :
  FlightState.geo_altitude Sample.no_geo_altitude = Null
  ∧ ∃ a, analyze_region
           (Sample.serving (Sample.snapshot_of "region1" [Sample.no_geo_altitude]))
           "region1" = Ok a
      ∧ Metrics.aircraft (Analysis.metrics a) = 1%nat
      ∧ Metrics.avg_altitude (Analysis.metrics a) = Some NaN
      ∧ Analysis.summary a
        = "Region region1 has 1 tracked aircraft as of 2024-05-01T12:00:00Z. Average altitude: nan m. Average velocity: 230.0 m/s. No anomalies detected in the last snapshot.".
Proof.
  split; [done|]. eexists. split; [vm_compute; reflexivity|].
  split_and!; by vm_compute.
Qed.

(** The sentences of the summary. *)
Definition count_sentence (region : string) (snapshot : Snapshot.t)
    (metrics : Metrics.t) : string :=
  "Region " +:+ region +:+ " has " +:+ str_nat (Metrics.aircraft metrics)
  +:+ " tracked aircraft as of "
  +:+ str_opt (get (Snapshot.last_updated snapshot)) +:+ ".".

Definition altitude_sentence (avg : pyfloat) : string :=
  "Average altitude: " +:+ str_float avg +:+ " m.".

Definition velocity_sentence (avg : pyfloat) : string :=
  "Average velocity: " +:+ str_float avg +:+ " m/s.".

Definition closing_sentence (anomalies : list Anomaly.t) : string :=
  match anomalies with
  | [] => "No anomalies detected in the last snapshot."
  | _ :: _ =>
      "Detected " +:+ str_nat (length anomalies) +:+ " anomalies requiring follow-up."
  end.

(** C5, as amended.  The summary is, joined by single spaces and in this
    order: the sentence with the aircraft count and the timestamp; the
    average-altitude sentence, included exactly when the average is
    neither null nor zero; the average-velocity sentence, on the same
    condition; and the anomaly-count sentence when there is an anomaly,
    else the fixed sentence that there is none. *)
Theorem build_summary_composition (region : string) (snapshot : Snapshot.t)
    (metrics : Metrics.t) (anomalies : list Anomaly.t) :
  ∃ altitude velocity : list string,
    _build_summary region snapshot metrics anomalies
    = join " " (count_sentence region snapshot metrics
                :: altitude ++ velocity ++ [closing_sentence anomalies])
    ∧ (∀ avg, Metrics.avg_altitude metrics = Some avg → avg ≠ Fin 0%Qc →
         altitude = [altitude_sentence avg])
    ∧ (Metrics.avg_altitude metrics = None
       ∨ Metrics.avg_altitude metrics = Some (Fin 0%Qc) → altitude = [])
    ∧ (∀ avg, Metrics.avg_velocity metrics = Some avg → avg ≠ Fin 0%Qc →
         velocity = [velocity_sentence avg])
    ∧ (Metrics.avg_velocity metrics = None
       ∨ Metrics.avg_velocity metrics = Some (Fin 0%Qc) → velocity = [])
    ∧ (anomalies = [] →
         closing_sentence anomalies = "No anomalies detected in the last snapshot.")
    ∧ (anomalies ≠ [] →
         closing_sentence anomalies
         = "Detected " +:+ str_nat (length anomalies)
           +:+ " anomalies requiring follow-up.").
Proof.
  assert (∀ avg, truthy_pyfloat avg = false ↔ avg = Fin 0%Qc) as Hzero.
  { intros [|q]; simpl; [split; discriminate|]. unfold truthy_float.
    rewrite negb_false_iff, bool_decide_eq_true. split; [by intros ->|congruence]. }
  exists (match Metrics.avg_altitude metrics with
          | Some avg => if truthy_pyfloat avg then [altitude_sentence avg] else []
          | None => []
          end),
         (match Metrics.avg_velocity metrics with
          | Some avg => if truthy_pyfloat avg then [velocity_sentence avg] else []
          | None => []
          end).
  split_and!.
  - unfold _build_summary, count_sentence, altitude_sentence, velocity_sentence.
    destruct (Metrics.avg_altitude metrics) as [alt|];
      [destruct (truthy_pyfloat alt)|];
      (destruct (Metrics.avg_velocity metrics) as [vel|];
       [destruct (truthy_pyfloat vel)|]);
      by destruct anomalies.
  - intros avg -> Hne. destruct (truthy_pyfloat avg) eqn:E; [done|].
    by apply Hzero in E.
  - intros [-> | ->]; [done|]. by rewrite (proj2 (Hzero _) eq_refl).
  - intros avg -> Hne. destruct (truthy_pyfloat avg) eqn:E; [done|].
    by apply Hzero in E.
  - intros [-> | ->]; [done|]. by rewrite (proj2 (Hzero _) eq_refl).
  - by intros ->.
  - by destruct anomalies.
Qed.

Lemma build_summary_composition_witness :
  _build_summary "region1" (Sample.snapshot_of "region1" [])
    {| Metrics.aircraft := 2; Metrics.avg_altitude := Some (Fin (Qc_of_Z 9000));
       Metrics.avg_velocity := None |} []
  = "Region region1 has 2 tracked aircraft as of 2024-05-01T12:00:00Z. Average altitude: 9000.0 m. No anomalies detected in the last snapshot.".
Proof.
  destruct (build_summary_composition "region1" (Sample.snapshot_of "region1" [])
              {| Metrics.aircraft := 2;
                 Metrics.avg_altitude := Some (Fin (Qc_of_Z 9000));
                 Metrics.avg_velocity := None |} [])
    as (altitude & velocity & -> & Halt & _ & _ & Hvel & Hclose & _).
  rewrite (Halt (Fin (Qc_of_Z 9000))); [|reflexivity|discriminate].
  rewrite Hvel; [|left; reflexivity]. rewrite Hclose; [|reflexivity].
  vm_compute. reflexivity.
Defined.

(** C5, as stated, fails: the average velocity of a snapshot whose only
    aircraft is parked is 0.0, which is not null, and the summary has no
    average-velocity sentence. *)
Lemma summary_omits_zero_average :
  ∃ a, analyze_region
         (Sample.serving (Sample.snapshot_of "region1" [Sample.parked]))
         "region1" = Ok a
    ∧ Metrics.avg_velocity (Analysis.metrics a) = Some (Fin 0%Qc)
    ∧ Analysis.summary a
      = "Region region1 has 1 tracked aircraft as of 2024-05-01T12:00:00Z. Average altitude: 95.0 m. No anomalies detected in the last snapshot.".
Proof.
  eexists. split; [vm_compute; reflexivity|]. split; [|by vm_compute].
  simpl. do 2 f_equal. by apply Qc_is_canon.
Qed.

End OpsFacts.

(** ** The alert store *)

Module StoreFacts.
Import Server.

(** C8. When the alerts file does not exist, loading the alerts returns
    the default with an empty timestamp and no alert, and the route that
    serves it answers with the same value: nothing is raised. *)
Theorem load_alerts_default (d : disk) :
  alerts_file d = None →
  _load_alerts d = Ok {| Alerts.last_updated := Val ""; Alerts.alerts := Val [] |}
  ∧ respond (list_alerts d)
    = Ok {| Alerts.last_updated := Val ""; Alerts.alerts := Val [] |}.
Proof.
  intros Hnone. unfold list_alerts, _load_alerts. rewrite Hnone. by split.
Qed.

Lemma load_alerts_default_witness :
  respond (list_alerts Sample.two_regions)
  = Ok {| Alerts.last_updated := Val ""; Alerts.alerts := Val [] |}.
Proof. apply (load_alerts_default Sample.two_regions). reflexivity. Defined.

End StoreFacts.

(** ** Compaction and the two-stage pipeline *)

Module PipelineFacts.
Import CrewRunner.

(** C6. Compaction keeps the region, the timestamp, the metrics and the
    summary, and keeps of the anomalies the first 15 in their order: a
    prefix of the list, the whole list when it has at most 15 elements, and
    for a list of 20 exactly its first 15, the last 5 being dropped.  Of the
    alerts it keeps the first 10 in the same way. *)
Theorem compact_analysis_prefix (analysis : Analysis.t) (alerts : Alerts.t) :
  Compact.region (_compact_analysis analysis alerts) = Analysis.region analysis
  ∧ Compact.last_updated (_compact_analysis analysis alerts)
    = Analysis.last_updated analysis
  ∧ Compact.metrics (_compact_analysis analysis alerts) = Analysis.metrics analysis
  ∧ Compact.summary (_compact_analysis analysis alerts) = Analysis.summary analysis
  ∧ (Compact.anomalies (_compact_analysis analysis alerts)
       `prefix_of` Analysis.anomalies analysis
     ∧ length (Compact.anomalies (_compact_analysis analysis alerts))
       = (length (Analysis.anomalies analysis) `min` 15)%nat
     ∧ (∀ i a, Compact.anomalies (_compact_analysis analysis alerts) !! i = Some a
          ↔ (i < 15)%nat ∧ Analysis.anomalies analysis !! i = Some a)
     ∧ (length (Analysis.anomalies analysis) = 20%nat →
          ∃ dropped, Analysis.anomalies analysis
                     = Compact.anomalies (_compact_analysis analysis alerts) ++ dropped
            ∧ length (Compact.anomalies (_compact_analysis analysis alerts)) = 15%nat
            ∧ length dropped = 5%nat))
  ∧ (Compact.alerts (_compact_analysis analysis alerts)
       `prefix_of` default [] (get (Alerts.alerts alerts))
     ∧ length (Compact.alerts (_compact_analysis analysis alerts))
       = (length (default [] (get (Alerts.alerts alerts))) `min` 10)%nat
     ∧ (∀ i a, Compact.alerts (_compact_analysis analysis alerts) !! i = Some a
          ↔ (i < 10)%nat ∧ default [] (get (Alerts.alerts alerts)) !! i = Some a)).
Proof.
  assert (∀ A n (l : list A),
    take n l `prefix_of` l
    ∧ length (take n l) = (length l `min` n)%nat
    ∧ ∀ i a, take n l !! i = Some a ↔ (i < n)%nat ∧ l !! i = Some a) as Htake.
  { intros A n l. split; [by exists (drop n l); rewrite take_drop|].
    split; [rewrite length_take; lia|]. intros i a.
    destruct (decide (i < n)%nat).
    - rewrite lookup_take_lt by done. tauto.
    - rewrite lookup_take_ge by lia. split; [done|]. by intros [? _]. }
  unfold _compact_analysis, slice_to.
  cbn [Compact.region Compact.last_updated Compact.metrics Compact.summary
       Compact.anomalies Compact.alerts].
  split_and!; try done; try apply Htake.
  intros Hlen. exists (drop 15 (Analysis.anomalies analysis)).
  rewrite take_drop, length_take, length_drop, Hlen. done.
Qed.

Lemma compact_analysis_prefix_witness :
  Compact.anomalies
    (_compact_analysis
       {| Analysis.region := "region1"; Analysis.last_updated := None;
          Analysis.bounds := None;
          Analysis.metrics := Metrics.Build_t 20 None None;
          Analysis.anomalies := Sample.twenty_anomalies;
          Analysis.summary := "" |}
       {| Alerts.last_updated := Val ""; Alerts.alerts := Val [] |})
  = (λ i, Anomaly.Build_t "TEST123" "Stale telemetry" (AInt i)) <$> seqZ 46 15.
Proof.
  destruct (compact_analysis_prefix
              {| Analysis.region := "region1"; Analysis.last_updated := None;
                 Analysis.bounds := None;
                 Analysis.metrics := Metrics.Build_t 20 None None;
                 Analysis.anomalies := Sample.twenty_anomalies;
                 Analysis.summary := "" |}
              {| Alerts.last_updated := Val ""; Alerts.alerts := Val [] |})
    as (_ & _ & _ & _ & (_ & _ & _ & Htwenty) & _).
  destruct Htwenty as (dropped & Hsplit & Hlen & _); [reflexivity|].
  vm_compute. reflexivity.
Defined.

(** The flight context of a callsign that no region holds. *)
Definition not_found_context : FlightContext.t :=
  {| FlightContext.region := None;
     FlightContext.last_updated := None;
     FlightContext.state := FlightState.empty;
     FlightContext.status :=
       "Flight not found in latest snapshots. Please verify the callsign." |}.

(** The keys each stage writes, and the keys a run starts with. *)
Definition ops_keys : list string :=
  ["ops_report"; "ops_structured"; "alerts"; "last_updated"].
Definition traveler_keys : list string := ["traveler_response"; "flight_context"].
Definition input_keys : list string := ["region"; "callsign"; "question"].

Section pipeline.
Context (client : MCPClient).
Context (ops_chain : OpsInputs → result string).
Context (traveler_chain : TravelerInputs → result string).

Lemma ops_node_Ok state next :
  ops_node client ops_chain state = Ok next →
  ∃ report analysis alerts,
    next = <["last_updated" := of_opt_str (Analysis.last_updated analysis)]>
             (<["alerts" := VAlerts alerts]>
                (<["ops_structured" := VAnalysis analysis]>
                   (<["ops_report" := VStr report]> state))).
Proof.
  unfold ops_node.
  destruct (getitem_str state "region") as [region|]; simpl; [|done].
  destruct (OpsAnalystAgent.analyze_region client region) as [analysis|];
    simpl; [|done].
  destruct (list_alerts client) as [alerts|]; simpl; [|done].
  destruct (ops_chain _) as [report|]; simpl; [|done].
  intros [= <-]. eauto.
Qed.

Lemma traveler_node_Ok state next :
  traveler_node client traveler_chain state = Ok next →
  ∃ reply flight,
    next = <["flight_context" := VFlight flight]>
             (<["traveler_response" := VStr reply]> state).
Proof.
  unfold traveler_node.
  destruct (getitem_str state "callsign") as [callsign|]; simpl; [|done].
  destruct (TravelerSupportAgent.get_flight_context client callsign)
    as [flight|]; simpl; [|done].
  destruct (traveler_chain _) as [reply|]; simpl; [|done].
  intros [= <-]. eauto.
Qed.

(** C2. Each stage returns its input state with its own keys set: the
    OPS stage sets [ops_report], [ops_structured], [alerts] and
    [last_updated], the TRAVELER stage sets [traveler_response] and
    [flight_context], and neither touches another key.  So after the
    TRAVELER stage the four keys of the OPS stage are present with the
    values the OPS stage gave them, and the input keys [region],
    [callsign] and [question] hold what they held at the start. *)
Theorem pipeline_state_accumulates (s0 s1 s2 : GraphState) :
  ops_node client ops_chain s0 = Ok s1 →
  traveler_node client traveler_chain s1 = Ok s2 →
  (∃ report analysis alerts,
     s1 = <["last_updated" := of_opt_str (Analysis.last_updated analysis)]>
            (<["alerts" := VAlerts alerts]>
               (<["ops_structured" := VAnalysis analysis]>
                  (<["ops_report" := VStr report]> s0))))
  ∧ (∃ reply flight,
       s2 = <["flight_context" := VFlight flight]>
              (<["traveler_response" := VStr reply]> s1))
  ∧ (∀ k, k ∉ ops_keys → s1 !! k = s0 !! k)
  ∧ (∀ k, k ∉ traveler_keys → s2 !! k = s1 !! k)
  ∧ (∀ k, k ∈ ops_keys → is_Some (s1 !! k) ∧ s2 !! k = s1 !! k)
  ∧ (∀ k, k ∈ input_keys → s2 !! k = s0 !! k)
  ∧ (∀ region callsign question,
       s0 = initial_state region callsign question →
       s2 !! "region" = Some (VStr region)
       ∧ s2 !! "callsign" = Some (VStr callsign)
       ∧ s2 !! "question" = Some (VStr question)).
Proof.
  intros Hops Htrav.
  destruct (ops_node_Ok _ _ Hops) as (report & analysis & alerts & E1).
  destruct (traveler_node_Ok _ _ Htrav) as (reply & flight & E2).
  assert (∀ k, k ∉ ops_keys → s1 !! k = s0 !! k) as Hframe1.
  { intros k Hk. unfold ops_keys in Hk. rewrite !not_elem_of_cons in Hk.
    destruct Hk as (? & ? & ? & ? & _). rewrite E1.
    by rewrite !lookup_insert_ne. }
  assert (∀ k, k ∉ traveler_keys → s2 !! k = s1 !! k) as Hframe2.
  { intros k Hk. unfold traveler_keys in Hk. rewrite !not_elem_of_cons in Hk.
    destruct Hk as (? & ? & _). rewrite E2. by rewrite !lookup_insert_ne. }
  assert (∀ k, k ∈ input_keys → s2 !! k = s0 !! k) as Hinput.
  { intros k Hk. rewrite Hframe2, Hframe1; [done|..];
      unfold input_keys, ops_keys, traveler_keys in *;
      rewrite !elem_of_cons, elem_of_nil in Hk;
      rewrite !not_elem_of_cons; destruct Hk as [->|[->|[->|[]]]];
      split_and!; done || apply not_elem_of_nil. }
  split_and!; eauto.
  - intros k Hk. split.
    + unfold ops_keys in Hk. rewrite !elem_of_cons, elem_of_nil in Hk.
      rewrite E1. destruct Hk as [->|[->|[->|[->|[]]]]];
        rewrite ?lookup_insert_eq, ?lookup_insert_ne by done;
        rewrite ?lookup_insert_eq; eauto.
    + apply Hframe2. unfold ops_keys, traveler_keys in *.
      rewrite !elem_of_cons, elem_of_nil in Hk. rewrite !not_elem_of_cons.
      destruct Hk as [->|[->|[->|[->|[]]]]];
        split_and!; done || apply not_elem_of_nil.
  - intros region callsign question ->. unfold input_keys in Hinput.
    rewrite !Hinput by (rewrite !elem_of_cons; auto).
    unfold initial_state. split_and!; by simplify_map_eq.
Qed.

End pipeline.

Lemma pipeline_state_accumulates_witness :
  ∃ s1 s2,
    ops_node (Sample.serving Sample.region1_snapshot) Sample.ops_answers
      (initial_state "region1" "ABC123" "Is my flight on time?") = Ok s1
    ∧ traveler_node (Sample.serving Sample.region1_snapshot) Sample.traveler_answers
        s1 = Ok s2
    ∧ s2 !! "ops_report" = s1 !! "ops_report"
    ∧ s2 !! "region" = Some (VStr "region1").
Proof.
  pose (s1 := match ops_node (Sample.serving Sample.region1_snapshot)
                      Sample.ops_answers
                      (initial_state "region1" "ABC123" "Is my flight on time?")
              with Ok s => s | Raise _ => ∅ end).
  pose (s2 := match traveler_node (Sample.serving Sample.region1_snapshot)
                      Sample.traveler_answers s1
              with Ok s => s | Raise _ => ∅ end).
  assert (ops_node (Sample.serving Sample.region1_snapshot) Sample.ops_answers
            (initial_state "region1" "ABC123" "Is my flight on time?") = Ok s1)
    as E1 by reflexivity.
  assert (traveler_node (Sample.serving Sample.region1_snapshot)
            Sample.traveler_answers s1 = Ok s2)
    as E2 by reflexivity.
  exists s1, s2. split; [exact E1|]. split; [exact E2|].
  destruct (pipeline_state_accumulates _ _ _ _ _ _ E1 E2)
    as (_ & _ & _ & _ & Hops & _ & Hin).
  split.
  - apply Hops. apply elem_of_cons. left. reflexivity.
  - apply (Hin "region1" "ABC123" "Is my flight on time?"). reflexivity.
Defined.

(** Over the listed regions a snapshot is never missing, so a lookup that
    raises does so with a server error, which the client sees as status
    500; and the route answers 404 exactly when the scan ends without a
    match. *)
Lemma scan_regions_Raise d normalized regions e :
  (∀ r, r ∈ regions → r ∈ Server._list_regions d) →
  Server.scan_regions d normalized regions = Raise e →
  e = HTTPException 500 ∨ e = TypeError.
Proof.
  induction regions as [|r regions IH]; intros Hin; simpl; [done|].
  assert (r ∈ Server._list_regions d) as Hr by (apply Hin, elem_of_cons; auto).
  apply ServerFacts.elem_of_list_regions in Hr.
  unfold Server._load_snapshot.
  destruct (Server.snapshot_dir d ≫= (.!! r)) as [[|snap]|]; simpl.
  - intros [= <-]. by left.
  - unfold Snapshot.get_states. destruct (Snapshot.states snap); simpl.
    + apply IH. intros ??. apply Hin, elem_of_cons. auto.
    + intros [= <-]. by right.
    + destruct (Server.first_match normalized a); [done|].
      apply IH. intros ??. apply Hin, elem_of_cons. auto.
  - by destruct Hr.
Qed.

Lemma served_lookup d callsign :
  (Server._find_by_callsign d callsign = Ok None →
     Server.respond (Server.get_flight_by_callsign d callsign)
     = Raise (HTTPStatusError 404))
  ∧ (∀ e, Server._find_by_callsign d callsign = Raise e →
       Server.respond (Server.get_flight_by_callsign d callsign)
       = Raise (HTTPStatusError 500)).
Proof.
  unfold Server.get_flight_by_callsign. split.
  - by intros ->.
  - intros e He. rewrite He. simpl.
    apply scan_regions_Raise in He as [-> | ->]; done.
Qed.

Section traveler.
Context (client : MCPClient).
Context (ops_chain : OpsInputs → result string).
Context (traveler_chain : TravelerInputs → result string).

(** What the TRAVELER stage asks the reasoning call when the callsign was
    not found. *)
Definition not_found_inputs (state : GraphState) (callsign : string)
    : TravelerInputs :=
  {| traveler_callsign := callsign;
     traveler_question := get_str state "question";
     ops_report := get_str state "ops_report";
     flight_json := _compact_flight not_found_context |}.

(** C7. When the callsign lookup is answered with status 404, the flight
    context is a value, not an exception: its status asks to verify the
    callsign.  The TRAVELER stage goes on to its reasoning call with that
    context and, when the call answers, returns the state with the reply
    and the context; a run whose OPS stage succeeded then completes.  Every
    other failure of the lookup is raised unchanged by
    [get_flight_context], by the TRAVELER stage and by the run.  Against
    the server, a callsign held by no region is the first case, and a
    snapshot that cannot be read while scanning is the second. *)
Theorem traveler_lookup_failures (callsign : string) :
  (find_by_callsign client callsign = Raise (HTTPStatusError 404) →
     TravelerSupportAgent.get_flight_context client callsign = Ok not_found_context
     ∧ CompactFlight.status (_compact_flight not_found_context)
       = "Flight not found in latest snapshots. Please verify the callsign."
     ∧ (∀ state, state !! "callsign" = Some (VStr callsign) →
          traveler_node client traveler_chain state
          = (reply ← traveler_chain (not_found_inputs state callsign);
             Ok (<["flight_context" := VFlight (_compact_flight not_found_context)]>
                   (<["traveler_response" := VStr reply]> state))))
     ∧ (∀ region question s1 reply,
          ops_node client ops_chain (initial_state region callsign question) = Ok s1 →
          traveler_chain (not_found_inputs s1 callsign) = Ok reply →
          ∃ out, run_crewai client ops_chain traveler_chain region callsign question
                 = Ok out
            ∧ out_traveler_response out = Some (VStr reply)
            ∧ out_flight_context out
              = Some (VFlight (_compact_flight not_found_context))))
  ∧ (∀ e, find_by_callsign client callsign = Raise e →
       e ≠ HTTPStatusError 404 →
       TravelerSupportAgent.get_flight_context client callsign = Raise e
       ∧ (∀ state, state !! "callsign" = Some (VStr callsign) →
            traveler_node client traveler_chain state = Raise e)
       ∧ (∀ region question s1,
            ops_node client ops_chain (initial_state region callsign question) = Ok s1 →
            run_crewai client ops_chain traveler_chain region callsign question
            = Raise e))
  ∧ (∀ d, find_by_callsign client callsign
          = Server.respond (Server.get_flight_by_callsign d callsign) →
       (Server._find_by_callsign d callsign = Ok None →
          TravelerSupportAgent.get_flight_context client callsign
          = Ok not_found_context)
       ∧ (∀ e, Server._find_by_callsign d callsign = Raise e →
            TravelerSupportAgent.get_flight_context client callsign
            = Raise (HTTPStatusError 500))).
Proof.
  assert (∀ region question s1,
    ops_node client ops_chain (initial_state region callsign question) = Ok s1 →
    s1 !! "callsign" = Some (VStr callsign)) as Hkeeps.
  { intros region question s1 (? & ? & ? & ->)%ops_node_Ok.
    unfold initial_state. by simplify_map_eq. }
  assert (find_by_callsign client callsign = Raise (HTTPStatusError 404) →
          TravelerSupportAgent.get_flight_context client callsign
          = Ok not_found_context) as Hnf.
  { intros H. unfold TravelerSupportAgent.get_flight_context. by rewrite H. }
  assert (∀ e, find_by_callsign client callsign = Raise e →
          e ≠ HTTPStatusError 404 →
          TravelerSupportAgent.get_flight_context client callsign = Raise e)
    as Hother.
  { intros e H Hne. unfold TravelerSupportAgent.get_flight_context. rewrite H.
    destruct e as [| code | | | | |]; try done.
    destruct (code =? 404) eqn:E; [|done].
    apply Z.eqb_eq in E as ->. done. }
  split_and!.
  - intros H. split_and!; [by apply Hnf|done|..].
    + intros state Hcs. unfold traveler_node, getitem_str. rewrite Hcs. simpl.
      by rewrite (Hnf H).
    + intros region question s1 reply Hops Hreply.
      unfold run_crewai, graph_invoke. rewrite Hops. simpl.
      unfold traveler_node, getitem_str.
      rewrite (Hkeeps _ _ _ Hops). simpl. rewrite (Hnf H). simpl.
      fold (not_found_inputs s1 callsign). rewrite Hreply. simpl.
      eexists. split; [done|]. simpl. by simplify_map_eq.
  - intros e H Hne. split_and!; [by apply Hother|..].
    + intros state Hcs. unfold traveler_node, getitem_str. rewrite Hcs. simpl.
      by rewrite (Hother e H Hne).
    + intros region question s1 Hops.
      unfold run_crewai, graph_invoke. rewrite Hops. simpl.
      unfold traveler_node, getitem_str.
      rewrite (Hkeeps _ _ _ Hops). simpl. by rewrite (Hother e H Hne).
  - intros d Hserved. destruct (served_lookup d callsign) as [H404 H500]. split.
    + intros Hnone. apply Hnf. by rewrite Hserved, H404.
    + intros e He. apply Hother; [|done]. by rewrite Hserved, (H500 e).
Qed.

End traveler.

Lemma traveler_lookup_failures_witness :
  TravelerSupportAgent.get_flight_context
    (Sample.serving Sample.region1_snapshot) "NOPE1" = Ok not_found_context
  ∧ TravelerSupportAgent.get_flight_context
      (Sample.failing_lookup Sample.region1_snapshot) "NOPE1"
    = Raise (HTTPStatusError 500).
Proof.
  split.
  - destruct (traveler_lookup_failures (Sample.serving Sample.region1_snapshot)
                Sample.ops_answers Sample.traveler_answers "NOPE1")
      as (Hnf & _ & _).
    apply Hnf. reflexivity.
  - destruct (traveler_lookup_failures
                (Sample.failing_lookup Sample.region1_snapshot)
                Sample.ops_answers Sample.traveler_answers "NOPE1")
      as (_ & Hother & _).
    apply Hother; [reflexivity|discriminate].
Defined.

End PipelineFacts.

(** * Further properties of the code *)

(** ** The anomaly rules as coded *)

Module EngineProps.
Import OpsAnalystAgent OpsFacts.

(** X1. The anomalies of a snapshot come state after state: those of a list of
    states followed by another are those of the first followed by those of
    the second.  No state contributes more than four records, and no state
    at all gives none. *)
Theorem detect_anomalies_in_state_order (states1 states2 : list FlightState.t) :
  _detect_anomalies (states1 ++ states2)
  = _detect_anomalies states1 ++ _detect_anomalies states2
  ∧ (length (_detect_anomalies states1) ≤ 4 * length states1)%nat
  ∧ _detect_anomalies [] = [].
Proof.
  split_and!; [| |done].
  - rewrite !detect_anomalies_concat, fmap_app. apply concat_app.
  - rewrite detect_anomalies_concat.
    induction states1 as [|s states IH]; [simpl; lia|].
    rewrite fmap_cons. cbn [concat]. rewrite length_cons.
    rewrite length_app, detect_state_rules, app_nil_l, !length_app.
    assert (length (check_velocity (recorded_callsign s) s []) ≤ 1)%nat.
    { unfold check_velocity. repeat case_match; simpl; lia. }
    assert (length (check_altitude (recorded_callsign s) s []) ≤ 1)%nat.
    { unfold check_altitude. repeat case_match; simpl; lia. }
    assert (length (check_latency (recorded_callsign s) s []) ≤ 1)%nat.
    { unfold check_latency. repeat case_match; simpl; lia. }
    assert (length (check_coordinates (recorded_callsign s) s []) ≤ 1)%nat.
    { unfold check_coordinates. repeat case_match; simpl; lia. }
    lia.
Qed.

(** When each test finds something. *)
Lemma elem_of_check_velocity a cs state :
  a ∈ check_velocity cs state []
  ↔ ∃ v, get (FlightState.velocity state) = Some v ∧ (Qc_of_Z 280 < v)%Qc
      ∧ a = Anomaly.Build_t cs "High velocity" (AFloat v).
Proof.
  unfold check_velocity. destruct (get (FlightState.velocity state)) as [v|].
  - destruct (bool_decide (Qc_of_Z 280 < v)%Qc) eqn:E.
    + apply bool_decide_eq_true in E. rewrite (truthy_float_above v E). simpl.
      rewrite list_elem_of_singleton. split; [by eauto|].
      by intros (? & [= <-] & _ & ->).
    + apply bool_decide_eq_false in E. rewrite andb_false_r, elem_of_nil.
      split; [done|]. by intros (? & [= <-] & ? & _).
  - rewrite elem_of_nil. split; [done|]. by intros (? & [=] & _).
Qed.

Lemma elem_of_check_altitude a cs state :
  a ∈ check_altitude cs state []
  ↔ ∃ b, get (FlightState.baro_altitude state) = Some b ∧ (b < Qc_of_Z 300)%Qc
      ∧ a = Anomaly.Build_t cs "Low altitude" (AFloat b).
Proof.
  unfold check_altitude. destruct (get (FlightState.baro_altitude state)) as [b|].
  - destruct (bool_decide (b < Qc_of_Z 300)%Qc) eqn:E.
    + apply bool_decide_eq_true in E. simpl.
      rewrite list_elem_of_singleton. split; [by eauto|].
      by intros (? & [= <-] & _ & ->).
    + apply bool_decide_eq_false in E. rewrite elem_of_nil.
      split; [done|]. by intros (? & [= <-] & ? & _).
  - rewrite elem_of_nil. split; [done|]. by intros (? & [=] & _).
Qed.

Lemma elem_of_check_latency a cs state :
  a ∈ check_latency cs state []
  ↔ ∃ lc tp, get (FlightState.last_contact state) = Some lc
      ∧ get (FlightState.time_position state) = Some tp
      ∧ lc ≠ 0 ∧ tp ≠ 0 ∧ 45 < lc - tp
      ∧ a = Anomaly.Build_t cs "Stale telemetry" (AInt (lc - tp)).
Proof.
  unfold check_latency, truthy_int.
  destruct (get (FlightState.last_contact state)) as [lc|];
    [destruct (get (FlightState.time_position state)) as [tp|]|].
  - destruct (Z.eqb_spec lc 0), (Z.eqb_spec tp 0), (Z.ltb_spec 45 (lc - tp));
      simpl; rewrite ?elem_of_nil, ?list_elem_of_singleton;
      (split; [try done; by eauto 10|]);
      intros (? & ? & [= <-] & [= <-] & ? & ? & ? & ?); done || lia.
  - rewrite elem_of_nil. split; [done|]. by intros (? & ? & _ & [=] & _).
  - rewrite elem_of_nil. split; [done|]. by intros (? & ? & [=] & _).
Qed.

Lemma not_float_spec x : not_float x = true ↔ x = None ∨ x = Some 0%Qc.
Proof.
  destruct x as [v|]; simpl; [|by split; auto].
  unfold not_float, truthy_float. simpl.
  rewrite negb_involutive, bool_decide_eq_true.
  split; [intros ->; auto|]. by intros [[=]|[= ->]].
Qed.

Lemma elem_of_check_coordinates a cs state :
  a ∈ check_coordinates cs state []
  ↔ (get (FlightState.latitude state) = None
     ∨ get (FlightState.latitude state) = Some 0%Qc
     ∨ get (FlightState.longitude state) = None
     ∨ get (FlightState.longitude state) = Some 0%Qc)
    ∧ a = Anomaly.Build_t cs "Missing coordinates" (AStr "n/a").
Proof.
  unfold check_coordinates.
  destruct (not_float (get (FlightState.latitude state))
            || not_float (get (FlightState.longitude state))) eqn:E.
  - apply orb_true_iff in E. rewrite !not_float_spec in E. simpl.
    rewrite list_elem_of_singleton. tauto.
  - apply orb_false_iff in E as [E1 E2]. rewrite elem_of_nil.
    split; [done|]. intros [H _].
    assert (not_float (get (FlightState.latitude state)) = true
            ∨ not_float (get (FlightState.longitude state)) = true) as [?|?]
      by (rewrite !not_float_spec; tauto); congruence.
Qed.

(** X2. The records of a snapshot are exactly these: for some state of the
    snapshot, under the callsign recorded for it, "High velocity" with the
    velocity when that is present and above 280; "Low altitude" with the
    barometric altitude when that is present and below 300; "Stale
    telemetry" with the latency when both timestamps are present and not
    zero and the latency is above 45; "Missing coordinates" with "n/a"
    when the latitude or the longitude is missing or zero. *)
Theorem anomaly_rules_as_coded (states : list FlightState.t) (a : Anomaly.t) :
  a ∈ _detect_anomalies states
  ↔ ∃ state, state ∈ states
      ∧ ((∃ v, get (FlightState.velocity state) = Some v
            ∧ (Qc_of_Z 280 < v)%Qc
            ∧ a = Anomaly.Build_t (recorded_callsign state) "High velocity" (AFloat v))
         ∨ (∃ b, get (FlightState.baro_altitude state) = Some b
              ∧ (b < Qc_of_Z 300)%Qc
              ∧ a = Anomaly.Build_t (recorded_callsign state) "Low altitude" (AFloat b))
         ∨ (∃ lc tp, get (FlightState.last_contact state) = Some lc
              ∧ get (FlightState.time_position state) = Some tp
              ∧ lc ≠ 0 ∧ tp ≠ 0 ∧ 45 < lc - tp
              ∧ a = Anomaly.Build_t (recorded_callsign state) "Stale telemetry"
                      (AInt (lc - tp)))
         ∨ ((get (FlightState.latitude state) = None
             ∨ get (FlightState.latitude state) = Some 0%Qc
             ∨ get (FlightState.longitude state) = None
             ∨ get (FlightState.longitude state) = Some 0%Qc)
            ∧ a = Anomaly.Build_t (recorded_callsign state) "Missing coordinates"
                    (AStr "n/a"))).
Proof.
  rewrite elem_of_detect_anomalies.
  apply exist_proper. intros state. apply and_iff_compat_l.
  rewrite detect_state_rules, app_nil_l, !elem_of_app.
  by rewrite elem_of_check_velocity, elem_of_check_altitude,
    elem_of_check_latency, elem_of_check_coordinates.
Qed.

End EngineProps.

(** ** Metrics and the analysis of a region *)

Module MetricsProps.
Import OpsAnalystAgent OpsFacts.










Lemma append_assoc (s1 s2 s3 : string) : (s1 +:+ s2) +:+ s3 = s1 +:+ (s2 +:+ s3).
Proof.
  induction s1 as [|c s1 IH]; [done|].
  change (String c ((s1 +:+ s2) +:+ s3) = String c (s1 +:+ (s2 +:+ s3))).
  by rewrite IH.
Qed.

(** X4. A snapshot without states is analysed without error: no aircraft,
    both averages null, no anomaly, and a summary of two sentences.  The
    request that fails, and the snapshot whose states are null, make the
    analysis raise; nothing else does. *)
Theorem analyze_region_outcomes (client : MCPClient) (region : string) :
  (∀ snapshot,
     list_region_snapshot client region = Ok snapshot →
     Snapshot.get_states snapshot = Ok [] →
     analyze_region client region
     = Ok {| Analysis.region := region;
             Analysis.last_updated := get (Snapshot.last_updated snapshot);
             Analysis.bounds := get (Snapshot.bounds snapshot);
             Analysis.metrics := Metrics.Build_t 0 None None;
             Analysis.anomalies := [];
             Analysis.summary :=
               "Region " +:+ region +:+ " has 0 tracked aircraft as of "
               +:+ str_opt (get (Snapshot.last_updated snapshot))
               +:+ ". No anomalies detected in the last snapshot." |})
  ∧ (∀ e, analyze_region client region = Raise e
        ↔ list_region_snapshot client region = Raise e
          ∨ ∃ snapshot, list_region_snapshot client region = Ok snapshot
              ∧ Snapshot.states snapshot = Null ∧ e = TypeError)
  ∧ (∀ analysis, analyze_region client region = Ok analysis →
       Analysis.region analysis = region
       ∧ ∃ snapshot states,
           list_region_snapshot client region = Ok snapshot
           ∧ Snapshot.get_states snapshot = Ok states
           ∧ Analysis.metrics analysis = _compute_metrics states
           ∧ Analysis.anomalies analysis = _detect_anomalies states
           ∧ Analysis.summary analysis
             = _build_summary region snapshot (Analysis.metrics analysis)
                 (Analysis.anomalies analysis)).
Proof.
  unfold analyze_region. split_and!.
  - intros snapshot -> Hstates. simpl. rewrite Hstates. simpl.
    do 2 f_equal. unfold _build_summary. simpl. unfold str_nat.
    generalize (str_opt (get (Snapshot.last_updated snapshot))). intros t.
    change (pretty 0%nat) with "0". unfold join.
    by rewrite !append_assoc.
  - intros e. destruct (list_region_snapshot client region) as [snapshot|e'];
      simpl.
    + unfold Snapshot.get_states.
      destruct (Snapshot.states snapshot) eqn:E; simpl.
      * split; [done|]. intros [[=]|(? & [= <-] & ? & _)]; congruence.
      * split; [intros [= <-]; eauto|]. by intros [[=]|(? & _ & _ & ->)].
      * split; [done|]. intros [[=]|(? & [= <-] & ? & _)]; congruence.
    + split; [intros [= ->]; auto|]. by intros [[= ->]|(? & [=] & _)].
  - intros analysis. destruct (list_region_snapshot client region)
      as [snapshot|]; simpl; [|done].
    destruct (Snapshot.get_states snapshot) as [states|] eqn:E; simpl; [|done].
    intros [= <-]. simpl. split; [done|]. by exists snapshot, states.
Qed.

Lemma analyze_region_outcomes_witness :
  ∃ analysis,
    analyze_region (Sample.serving (Sample.snapshot_of "region7" [])) "region7"
    = Ok analysis
    ∧ Analysis.summary analysis
      = "Region region7 has 0 tracked aircraft as of 2024-05-01T12:00:00Z. No anomalies detected in the last snapshot.".
Proof.
  destruct (analyze_region_outcomes
              (Sample.serving (Sample.snapshot_of "region7" [])) "region7")
    as (Hempty & _).
  eexists. split.
  - apply (Hempty (Sample.snapshot_of "region7" [])); reflexivity.
  - reflexivity.
Defined.

End MetricsProps.

(** ** The snapshot store and the locator, case by case *)

Module LocatorProps.
Import Server ServerFacts.








(** X7. Looking up a callsign in its normal form, or with the two steps of the
    normal form in the other order, is looking it up as given.  And a
    callsign looked up as it is stored is found: when a region holds a
    state with that callsign and the regions listed before it can be read,
    the lookup returns a state whose stored callsign has the same normal
    form. *)
Theorem stored_callsign_is_found (d : disk) (callsign : string) :
  _find_by_callsign d (upper (strip callsign)) = _find_by_callsign d callsign
  ∧ _find_by_callsign d (strip (upper callsign)) = _find_by_callsign d callsign
  ∧ (∀ r snap sts s,
       _load_snapshot d r = Ok snap → Snapshot.get_states snap = Ok sts →
       s ∈ sts → get (FlightState.callsign s) = Some callsign →
       (∀ r', r' ∈ _list_regions d → strictly_before r' r → readable d r') →
       ∃ found, _find_by_callsign d callsign = Ok (Some found)
         ∧ String.le (region found) r
         ∧ upper (strip (or_str (get (FlightState.callsign (state found))) ""))
           = upper (strip callsign)).
Proof.
  split_and!.
  - apply normalized_arg_irrelevant, PyFacts.normalize_idemp.
  - apply normalized_arg_irrelevant.
    by rewrite PyFacts.strip_idemp, PyFacts.strip_upper, PyFacts.upper_idemp.
  - intros r snap sts s Hload Hsts Hs Hcs Hread.
    assert (callsign_matches (upper (strip callsign)) s = true) as Hm.
    { unfold callsign_matches. rewrite Hcs. apply bool_decide_eq_true.
      by destruct callsign. }
    destruct (find_by_callsign_reaches d _ r snap sts s Hload Hsts Hs Hm Hread)
      as [found Hfound].
    exists found. split; [done|].
    pose proof (find_by_callsign_first d _ _ Hfound) as Hfirst. split.
    + by apply (match_not_after d (upper (strip callsign)) found r snap sts s).
    + destruct Hfirst as (_ & _ & (? & ? & ? & _ & _ & Hmf & _) & _).
      by apply bool_decide_eq_true in Hmf.
Qed.

Lemma stored_callsign_is_found_witness :
  ∃ found, _find_by_callsign Sample.two_regions "ABC123  " = Ok (Some found)
    ∧ String.le (region found) "region2".
Proof.
  destruct (stored_callsign_is_found Sample.two_regions "ABC123  ")
    as (_ & _ & Hfound).
  destruct (Hfound "region2" Sample.region2_snapshot
              [Sample.abc_in_region2; Sample.cruising "3c0002" (Val "KLM12")]
              Sample.abc_in_region2) as (found & Hf & Hle & _).
  - vm_compute; reflexivity.
  - vm_compute; reflexivity.
  - apply elem_of_cons. left. reflexivity.
  - reflexivity.
  - intros r' Hr' [Hle Hne].
    assert (_list_regions Sample.two_regions = ["region1"; "region2"]) as E
      by (vm_compute; reflexivity).
    rewrite E in Hr'. apply elem_of_cons in Hr' as [->|Hr'].
    + exists Sample.region1_snapshot,
        [Sample.cruising "3c0001" (Val "DLH4AB"); Sample.abc_in_region1].
      split; vm_compute; reflexivity.
    + apply list_elem_of_singleton in Hr' as ->. destruct Hne; reflexivity.
  - exists found. split; [exact Hf|exact Hle].
Defined.

End LocatorProps.

(** ** The traveler stage and the whole run *)

Module RunProps.
Import CrewRunner PipelineFacts TravelerSupportAgent.

(** A client whose callsign lookup and alerts are the server's routes over
    [d]; the region route is not used below. *)
Definition lookup_client (d : Server.disk) : MCPClient :=
  {| list_region_snapshot := λ _, Raise TransportError;
     find_by_callsign := λ c, Server.respond (Server.get_flight_by_callsign d c);
     list_alerts := Server.respond (Server.list_alerts d) |}.

(** X8. When the server finds the callsign, the flight context is that of the
    match: its region, the timestamp of its snapshot, its state, and the
    status derived from the state.  The callsign the compact context
    carries has the normal form of the callsign asked for. *)
Theorem flight_context_of_match (client : MCPClient) (d : Server.disk)
    (callsign : string) (found : Server.located) :
  find_by_callsign client callsign
  = Server.respond (Server.get_flight_by_callsign d callsign) →
  Server._find_by_callsign d callsign = Ok (Some found) →
  ∃ flight, get_flight_context client callsign = Ok flight
    ∧ FlightContext.region flight = Some (Server.region found)
    ∧ FlightContext.last_updated flight
      = get (Snapshot.last_updated (Server.snapshot found))
    ∧ FlightContext.state flight = Server.state found
    ∧ FlightContext.status flight = _derive_status (Server.state found)
    ∧ upper (strip (or_str (CompactFlight.callsign (_compact_flight flight)) ""))
      = upper (strip callsign).
Proof.
  intros Hserved Hfound. unfold get_flight_context.
  rewrite Hserved. unfold Server.get_flight_by_callsign. rewrite Hfound. simpl.
  eexists. split; [done|]. simpl. split_and!; try done.
  apply ServerFacts.find_by_callsign_first in Hfound
    as (_ & _ & (? & ? & ? & _ & _ & Hm & _) & _).
  by apply bool_decide_eq_true in Hm.
Qed.

Lemma flight_context_of_match_witness :
  ∃ flight,
    get_flight_context (lookup_client Sample.two_regions) "abc123" = Ok flight
    ∧ FlightContext.region flight = Some "region1".
Proof.
  destruct (flight_context_of_match (lookup_client Sample.two_regions)
              Sample.two_regions "abc123"
              {| Server.region := "region1";
                 Server.snapshot := Sample.region1_snapshot;
                 Server.state := Sample.abc_in_region1 |})
    as (flight & Hf & Hr & _).
  - reflexivity.
  - vm_compute; reflexivity.
  - exists flight. split; [exact Hf|exact Hr].
Defined.

Lemma or_float_spec (a b : option Qc) (x : Qc) :
  or_float a b = Some x ∧ x ≠ 0%Qc
  ↔ (a = Some x ∧ x ≠ 0%Qc)
    ∨ ((a = None ∨ a = Some 0%Qc) ∧ b = Some x ∧ x ≠ 0%Qc).
Proof.
  unfold or_float, truthy_float. destruct a as [y|].
  - destruct (decide (y = 0%Qc)) as [->|Hy].
    + rewrite bool_decide_eq_true_2 by done. simpl. split.
      * intros [-> ?]. right. auto.
      * intros [[[= <-] ?]|(_ & -> & ?)]; done.
    + rewrite bool_decide_eq_false_2 by done. simpl. split.
      * intros [[= <-] ?]. left. auto.
      * intros [[[= <-] ?]|([[=]|[= ->]] & _)]; done.
  - split.
    + intros [-> ?]. right. auto.
    + intros [[[=] _]|(_ & -> & ?)]; done.
Qed.

(** X9. The status sentence, case by case.  The empty dictionary has no
    telemetry; an aircraft marked on the ground is on the ground whatever
    else is known.  Otherwise the sentence goes by the altitude that the
    compact flight context carries (the geometric altitude when it is
    present and not zero, else the barometric one): with such an altitude
    that is not zero the sentence prints it, with the ground speed when the
    velocity is present and not zero; without one the telemetry is
    partial. *)
Theorem status_follows_compact_altitude (flight : FlightContext.t) :
  (FlightState.truthy (FlightContext.state flight) = false →
     _derive_status (FlightContext.state flight) = "No telemetry available.")
  ∧ (get (FlightState.on_ground (FlightContext.state flight)) = Some true →
       _derive_status (FlightContext.state flight)
       = "Aircraft is currently on the ground.")
  ∧ (FlightState.truthy (FlightContext.state flight) = true →
     get (FlightState.on_ground (FlightContext.state flight)) ≠ Some true →
     (∀ a, CompactFlight.altitude (_compact_flight flight) = Some a → a ≠ 0%Qc →
        (∀ v, CompactFlight.velocity (_compact_flight flight) = Some v →
           v ≠ 0%Qc →
           _derive_status (FlightContext.state flight)
           = "Aircraft cruising at approx " +:+ format_0f a
             +:+ " m with ground speed " +:+ format_0f v +:+ " m/s.")
        ∧ (CompactFlight.velocity (_compact_flight flight) = None
           ∨ CompactFlight.velocity (_compact_flight flight) = Some 0%Qc →
           _derive_status (FlightContext.state flight)
           = "Aircraft altitude approx " +:+ format_0f a +:+ " m."))
     ∧ (CompactFlight.altitude (_compact_flight flight) = None
        ∨ CompactFlight.altitude (_compact_flight flight) = Some 0%Qc →
        _derive_status (FlightContext.state flight)
        = "Telemetry is partial but aircraft is airborne."))
  ∧ (∀ a, CompactFlight.altitude (_compact_flight flight) = Some a ∧ a ≠ 0%Qc
       ↔ (get (FlightState.geo_altitude (FlightContext.state flight)) = Some a
          ∧ a ≠ 0%Qc)
         ∨ ((get (FlightState.geo_altitude (FlightContext.state flight)) = None
             ∨ get (FlightState.geo_altitude (FlightContext.state flight))
               = Some 0%Qc)
            ∧ get (FlightState.baro_altitude (FlightContext.state flight)) = Some a
            ∧ a ≠ 0%Qc)).
Proof.
  destruct flight as [region last_updated state status]. simpl.
  assert (∀ x : Qc, x ≠ 0%Qc → truthy_float x = true) as Htrue.
  { intros x Hx. unfold truthy_float. by rewrite bool_decide_eq_false_2. }
  assert (truthy_float 0%Qc = false) as Hfalse by done.
  split_and!.
  - intros Ht. unfold _derive_status. by rewrite Ht.
  - intros Hg. unfold _derive_status, FlightState.truthy. rewrite Hg.
    destruct (FlightState.on_ground state); [done|done|].
    simpl. by rewrite !orb_true_r.
  - intros Ht Hg. unfold _derive_status. rewrite Ht. simpl.
    assert (from_option id false (get (FlightState.on_ground state)) = false)
      as ->.
    { destruct (get (FlightState.on_ground state)) as [[]|]; done. }
    split.
    + intros a -> Ha. rewrite (Htrue a Ha). split.
      * intros v -> Hv. by rewrite (Htrue v Hv).
      * intros [-> | ->]; [done|]. by rewrite Hfalse.
    + intros [-> | ->]; [done|]. by rewrite Hfalse.
  - intros a. apply or_float_spec.
Qed.

Lemma status_follows_compact_altitude_witness :
  _derive_status Sample.abc_in_region1
  = "Aircraft cruising at approx 10100 m with ground speed 230 m/s."
  ∧ _derive_status FlightState.empty = "No telemetry available.".
Proof.
  destruct (status_follows_compact_altitude
              {| FlightContext.region := Some "region1";
                 FlightContext.last_updated := None;
                 FlightContext.state := Sample.abc_in_region1;
                 FlightContext.status := "" |}) as (_ & _ & Hair & _).
  destruct (status_follows_compact_altitude not_found_context) as (Hnone & _).
  split; [|apply Hnone; reflexivity].
  destruct Hair as [Halt _]; [reflexivity|discriminate|].
  destruct (Halt (Qc_of_Z 10100)) as [Hvel _]; [reflexivity|discriminate|].
  etrans; [apply (Hvel (Qc_of_Z 230)); [reflexivity|discriminate]|].
  vm_compute. reflexivity.
Defined.

Section run.
Context (client : MCPClient).
Context (ops_chain : OpsInputs → result string).
Context (traveler_chain : TravelerInputs → result string).

(** What the OPS stage asks its reasoning call. *)
Definition ops_inputs (region question : string) (analysis : Analysis.t)
    (alerts : Alerts.t) : OpsInputs :=
  {| ops_region := region;
     ops_question := question;
     analysis_json := _compact_analysis analysis alerts;
     alerts_json := Compact.alerts (_compact_analysis analysis alerts) |}.

(** What the TRAVELER stage asks its reasoning call. *)
Definition traveler_inputs (callsign question report : string)
    (flight : FlightContext.t) : TravelerInputs :=
  {| traveler_callsign := callsign;
     traveler_question := question;
     ops_report := report;
     flight_json := _compact_flight flight |}.

Lemma ops_node_initial region callsign question :
  ops_node client ops_chain (initial_state region callsign question)
  = (analysis ← OpsAnalystAgent.analyze_region client region;
     alerts ← list_alerts client;
     report ← ops_chain (ops_inputs region question analysis alerts);
     Ok (<["last_updated" := of_opt_str (Analysis.last_updated analysis)]>
           (<["alerts" := VAlerts alerts]>
              (<["ops_structured" := VAnalysis analysis]>
                 (<["ops_report" := VStr report]>
                    (initial_state region callsign question)))))).
Proof.
  unfold ops_node, getitem_str, get_str, initial_state, ops_inputs.
  by simplify_map_eq.
Qed.

Lemma traveler_node_after_ops region callsign question report analysis alerts :
  traveler_node client traveler_chain
    (<["last_updated" := of_opt_str (Analysis.last_updated analysis)]>
       (<["alerts" := VAlerts alerts]>
          (<["ops_structured" := VAnalysis analysis]>
             (<["ops_report" := VStr report]>
                (initial_state region callsign question)))))
  = (flight ← get_flight_context client callsign;
     reply ← traveler_chain (traveler_inputs callsign question report flight);
     Ok (<["flight_context" := VFlight (_compact_flight flight)]>
           (<["traveler_response" := VStr reply]>
              (<["last_updated" := of_opt_str (Analysis.last_updated analysis)]>
                 (<["alerts" := VAlerts alerts]>
                    (<["ops_structured" := VAnalysis analysis]>
                       (<["ops_report" := VStr report]>
                          (initial_state region callsign question)))))))).
Proof.
  unfold traveler_node, getitem_str, get_str, initial_state, traveler_inputs.
  by simplify_map_eq.
Qed.

(** X10. A run that completes went through five steps in this order, each of
    which answered: the analysis of the region, the alerts, the reasoning
    call of the OPS stage on the compact payload (at most 15 anomalies and
    10 alerts) with the question, the flight context of the callsign, and
    the reasoning call of the TRAVELER stage, which gets the OPS report
    unchanged as its handoff, with the question and the compact flight
    context.  The result holds all five keys: the two replies, the
    analysis and the alerts in full (not compacted), and the compact flight
    context.  Conversely, when the five steps answer, the run completes
    with that result. *)
Theorem run_crewai_completes (region callsign question : string) (out : outputs) :
  run_crewai client ops_chain traveler_chain region callsign question = Ok out
  ↔ ∃ analysis alerts report flight reply,
      OpsAnalystAgent.analyze_region client region = Ok analysis
      ∧ list_alerts client = Ok alerts
      ∧ ops_chain (ops_inputs region question analysis alerts) = Ok report
      ∧ get_flight_context client callsign = Ok flight
      ∧ traveler_chain (traveler_inputs callsign question report flight) = Ok reply
      ∧ (length (Compact.anomalies
                   (analysis_json (ops_inputs region question analysis alerts)))
         ≤ 15)%nat
      ∧ (length (alerts_json (ops_inputs region question analysis alerts))
         ≤ 10)%nat
      ∧ out = {| out_ops_report := Some (VStr report);
                 out_traveler_response := Some (VStr reply);
                 out_ops_structured := Some (VAnalysis analysis);
                 out_flight_context := Some (VFlight (_compact_flight flight));
                 out_alerts := Some (VAlerts alerts) |}.
Proof.
  assert (∀ analysis alerts,
    (length (Compact.anomalies
               (analysis_json (ops_inputs region question analysis alerts)))
     ≤ 15)%nat
    ∧ (length (alerts_json (ops_inputs region question analysis alerts))
       ≤ 10)%nat) as Hcaps.
  { intros analysis alerts. unfold ops_inputs, _compact_analysis, slice_to.
    cbn [analysis_json alerts_json Compact.anomalies Compact.alerts].
    rewrite !length_take. lia. }
  unfold run_crewai, graph_invoke. rewrite ops_node_initial. split.
  - destruct (OpsAnalystAgent.analyze_region client region) as [analysis|];
      simpl; [|done].
    destruct (list_alerts client) as [alerts|]; simpl; [|done].
    destruct (ops_chain _) as [report|] eqn:Hreport; simpl; [|done].
    rewrite traveler_node_after_ops.
    destruct (get_flight_context client callsign) as [flight|]; simpl; [|done].
    destruct (traveler_chain _) as [reply|] eqn:Hreply; simpl; [|done].
    intros [= <-]. exists analysis, alerts, report, flight, reply.
    split_and!; try done.
    + exact (proj1 (Hcaps analysis alerts)).
    + exact (proj2 (Hcaps analysis alerts)).
  - intros (analysis & alerts & report & flight & reply
            & -> & -> & Hreport & Hflight & Hreply & _ & _ & ->).
    simpl. rewrite Hreport. simpl. rewrite traveler_node_after_ops.
    rewrite Hflight. simpl. rewrite Hreply. simpl. by simplify_map_eq.
Qed.


End run.

Lemma run_crewai_completes_witness :
  ∃ out,
    run_crewai (Sample.serving Sample.region1_snapshot) Sample.ops_answers
      Sample.traveler_answers "region1" "NOPE1" "Is my flight on time?" = Ok out
    ∧ out_traveler_response out
      = Some (VStr "Flight not found in latest snapshots. Please verify the callsign.").
Proof.
  pose (analysis := match OpsAnalystAgent.analyze_region
                            (Sample.serving Sample.region1_snapshot) "region1"
                    with Ok a => a
                    | Raise _ => Analysis.Build_t "" None None
                                   (Metrics.Build_t 0 None None) [] ""
                    end).
  exists {| out_ops_report := Some (VStr "HANDOFF: nothing unusual in region1");
            out_traveler_response :=
              Some (VStr "Flight not found in latest snapshots. Please verify the callsign.");
            out_ops_structured := Some (VAnalysis analysis);
            out_flight_context := Some (VFlight (_compact_flight not_found_context));
            out_alerts :=
              Some (VAlerts {| Alerts.last_updated := Val "";
                               Alerts.alerts := Val [] |}) |}.
  split; [|reflexivity].
  apply (run_crewai_completes (Sample.serving Sample.region1_snapshot)
           Sample.ops_answers Sample.traveler_answers).
  exists analysis, {| Alerts.last_updated := Val ""; Alerts.alerts := Val [] |},
    "HANDOFF: nothing unusual in region1", not_found_context,
    "Flight not found in latest snapshots. Please verify the callsign.".
  split; [reflexivity|]. split; [reflexivity|]. split; [reflexivity|].
  split; [reflexivity|]. split; [reflexivity|].
  split; [vm_compute; lia|]. split; [vm_compute; lia|]. reflexivity.
Defined.


End RunProps.

(** ** The alerts route, case by case *)

Module AlertsProps.
Import Server.

(** X12. What a client gets from the alerts route.  An answer is the
    default when the alerts file does not exist and the parsed file
    otherwise, and it always has both keys; a file that does not parse, or
    parses to an object without one of the keys, is answered with status
    500, never with the default. *)
Theorem list_alerts_outcomes (d : disk) :
  (∀ data, respond (list_alerts d) = Ok data
     ↔ (alerts_file d = None
        ∧ data = {| Alerts.last_updated := Val ""; Alerts.alerts := Val [] |}
        ∨ alerts_file d = Some (Parsed data))
       ∧ ∃ t l, Alerts.last_updated data = Val t ∧ Alerts.alerts data = Val l)
  ∧ (∀ e, respond (list_alerts d) = Raise e → e = HTTPStatusError 500)
  ∧ (alerts_file d = Some Corrupt →
       _load_alerts d = Raise (HTTPException 500)
       ∧ respond (list_alerts d) = Raise (HTTPStatusError 500))
  ∧ (∀ data, alerts_file d = Some (Parsed data) →
       Alerts.last_updated data = Val "" → Alerts.alerts data = Val [] →
       respond (list_alerts d)
       = respond (list_alerts {| snapshot_dir := snapshot_dir d;
                                 alerts_file := None |})).
Proof.
  unfold list_alerts, _load_alerts, AlertsResponse. split_and!.
  - intros data. destruct (alerts_file d) as [[|parsed]|]; simpl.
    + split; [done|]. intros [[[H _]|H] _]; discriminate.
    + destruct (Alerts.last_updated parsed) eqn:E1;
        destruct (Alerts.alerts parsed) eqn:E2; simpl;
        try (split; [done|];
             intros [[[H _]|H] (t & l & Ht & Hl)]; [discriminate|];
             injection H as <-; congruence).
      split.
      * intros [= <-]. split; [by right|]. eauto.
      * intros [[[H _]|H] _]; [discriminate|]. by injection H as <-.
    + split.
      * intros [= <-]. split; [by left|]. eauto.
      * intros [[[_ ->]|H] _]; [done|discriminate].
  - intros e. destruct (alerts_file d) as [[|parsed]|]; simpl.
    + by intros [= <-].
    + destruct (Alerts.last_updated parsed), (Alerts.alerts parsed); simpl;
        by intros [= <-].
    + done.
  - by intros ->.
  - intros data -> E1 E2. simpl. rewrite E1, E2. simpl.
    destruct data as [lu al]. simpl in *. by subst.
Qed.

Lemma list_alerts_outcomes_witness :
  respond (list_alerts {| snapshot_dir := None; alerts_file := Some Corrupt |})
  = Raise (HTTPStatusError 500).
Proof.
  destruct (list_alerts_outcomes
              {| snapshot_dir := None; alerts_file := Some Corrupt |})
    as (_ & _ & Hcorrupt & _).
  apply Hcorrupt. reflexivity.
Defined.

End AlertsProps.
